(** * Alice Starter API (server.js): shallow embedding and verified properties

    The server keeps seven in-memory stores and maps every HTTP request to one
    read or one write of them, behind a tenant gate ([requireBiz]) or a staff
    gate ([requireStaff]).  The embedding below follows server.js handler by
    handler:

    - JavaScript values that travel through request bodies are [JS.value];
      [===], truthiness and [||] are written out;
    - JavaScript numbers are binary64 floats ([spec_float] at precision 53),
      so that the forecast arithmetic rounds as it does in the engine;
    - the objects server.js uses as maps are [Plain] objects: own
      properties, then the prototype chain, with the [__proto__] accessor;
    - the stores are one [state] record, threaded explicitly; [uuid()] and
      the clock are explicit arguments of the handlers;
    - a handler that can answer 401 returns a [result];
    - the jsonwebtoken package is not part of the repository: it is taken as
      an interface ([Jwt]) with the laws the handlers rely on. *)

From Stdlib Require Import ZArith QArith Qround SpecFloat String Ascii List Bool Lia.
From Stdlib Require Import DecimalString.
From stdpp Require Import gmap strings list countable.

Open Scope Z_scope.
Set Warnings "-register-all".

(** ** JavaScript numbers *)

Module Num.

(** binary64: 53 bits of precision, infinities at exponent 1024. *)
Definition prec : Z := 53.
Definition emax : Z := 1024.

Abbreviation number := spec_float.

Definition add : number -> number -> number := SFadd prec emax.
Definition sub : number -> number -> number := SFsub prec emax.
Definition mul : number -> number -> number := SFmul prec emax.
Definition div : number -> number -> number := SFdiv prec emax.

Definition NaN : number := S754_nan.
Definition Infinity : number := S754_infinity false.

(** An integer literal such as [10000]. *)
Definition of_Z (n : Z) : number := binary_normalize prec emax n 0 false.

(** A decimal literal such as [0.12], given as the fraction [12/100]: the
    double nearest to it, ties to even. *)
Definition literal (n d : positive) : number :=
  div (S754_finite false n 0) (S754_finite false d 0).

(** The real number a finite double stands for. *)
Definition exact (s : bool) (m : positive) (e : Z) : Q :=
  ((if s then -1 else 1) * inject_Z (Zpos m) * Qpower 2 e)%Q.

Definition is_finite (x : number) : bool :=
  match x with
  | S754_zero _ | S754_finite _ _ _ => true
  | S754_infinity _ | S754_nan => false
  end.

(** [Math.round]: the closest integer, a tie going towards +∞; NaN, the
    infinities and the zeros are returned as they are, and a negative
    argument that rounds to zero gives -0. *)
Definition Math_round (x : number) : number :=
  match x with
  | S754_finite s m e =>
      let n := Qfloor (exact s m e + (1 # 2))%Q in
      if n =? 0 then S754_zero s else of_Z n
  | _ => x
  end.

(** The strings [Number.prototype.toFixed] can return, kept structured:
    ["NaN"], ["Infinity"] with its sign, the decimal [n / 10^digits] with
    its sign, or the shortest round-trip rendering of [x] (used from 1e21
    on). *)
Inductive numeric_string :=
  | StrNaN
  | StrInfinity (neg : bool)
  | StrFixed (neg : bool) (n : Z) (digits : nat)
  | StrShortest (x : number).

(** [x.toFixed(f)]: for |x| < 1e21 the integer [n] with [n / 10^f] closest
    to |x| (the larger one on a tie), with the sign of [x] in front. *)
Definition toFixed (x : number) (f : nat) : numeric_string :=
  match x with
  | S754_nan => StrNaN
  | S754_infinity s => StrInfinity s
  | S754_zero _ => StrFixed false 0 f
  | S754_finite s m e =>
      let ax := exact false m e in
      if Qle_bool (inject_Z (10 ^ 21)) ax then StrShortest x
      else StrFixed s (Qfloor (ax * inject_Z (10 ^ Z.of_nat f) + (1 # 2))%Q) f
  end.

(** [Number(str)] on such a string: the double nearest to the decimal. *)
Definition Number (str : numeric_string) : number :=
  match str with
  | StrNaN => S754_nan
  | StrInfinity s => S754_infinity s
  | StrShortest x => x
  | StrFixed s n f =>
      match n with
      | Zpos p =>
          div (S754_finite s p 0) (S754_finite false (Pos.pow 10 (Pos.of_nat f)) 0)
      | _ => S754_zero s
      end
  end.

(** What [JSON.stringify] (behind [res.json]) writes for a number: the
    number when it is finite, [null] otherwise. *)
Inductive json_number :=
  | JsonNumber (x : number)
  | JsonNull.

Definition JSON_stringify (x : number) : json_number :=
  if is_finite x then JsonNumber x else JsonNull.

End Num.

Import Num.

(** ** JavaScript values *)

Module JS.

(** What [express.json()] can put in a body field, plus [undefined] for a
    field that is absent. *)
Inductive value :=
  | VUndefined
  | VNull
  | VBool (b : bool)
  | VNum (x : number)
  | VStr (s : string)
  | VArr (items : list value)
  | VObj (fields : list (string * value)).

Definition truthy (v : value) : bool :=
  match v with
  | VUndefined | VNull => false
  | VBool b => b
  | VNum (S754_zero _) | VNum S754_nan => false
  | VNum _ => true
  | VStr s => negb (String.eqb s "")
  | VArr _ | VObj _ => true
  end.

(** [v || d] *)
Definition or_else (v d : value) : value := if truthy v then v else d.

(** [a === b] between a stored value and a value of the current request.
    Primitives are compared by value with no coercion.  Arrays and objects
    are compared by reference, and the two sides always come from two
    different parsed bodies, so they are never the same object. *)
Definition strict_eq (a b : value) : bool :=
  match a, b with
  | VUndefined, VUndefined => true
  | VNull, VNull => true
  | VBool x, VBool y => Bool.eqb x y
  | VNum x, VNum y => SFeqb x y
  | VStr x, VStr y => String.eqb x y
  | _, _ => false
  end.

(** [s] without its prefix [p], when it starts with it. *)
Fixpoint strip_prefix (p s : string) : option string :=
  match p, s with
  | EmptyString, _ => Some s
  | String a p', String b s' => if Ascii.eqb a b then strip_prefix p' s' else None
  | String _ _, EmptyString => None
  end.

(** [s.replace(pat, rep)] with a string pattern: the first occurrence of
    [pat] in [s] is replaced, the rest of [s] is kept. *)
Fixpoint replace (pat rep s : string) : string :=
  match strip_prefix pat s with
  | Some rest => rep ++ rest
  | None =>
      match s with
      | EmptyString => EmptyString
      | String c s' => String c (replace pat rep s')
      end
  end.

(** Does the character [c] occur in [s]? *)
Fixpoint occurs (c : ascii) (s : string) : bool :=
  match s with
  | EmptyString => false
  | String a s' => Ascii.eqb a c || occurs c s'
  end.

End JS.

Import JS.

(** ** Plain objects used as maps

    [businesses] and [faqs] are object literals [{}] indexed by strings that
    come from a header.  A read [o[k]] looks for an own property and then
    along the prototype chain, which starts at [Object.prototype]; a write
    [o[k] = v] defines an own property, except that [__proto__] is an
    accessor of [Object.prototype] whose setter replaces the prototype of
    [o]. *)

Module Plain.

(** What a read can give: a value of the program's own data, or an object
    of the engine, named by its path ([Object], [Object.prototype],
    [Array.prototype.push], ...). *)
Inductive jsval :=
  | Data (v : value)
  | Native (path : string).

Definition truthy (x : jsval) : bool :=
  match x with
  | Data v => JS.truthy v
  | Native _ => true
  end.

(** The own property names of [Object.prototype]: [__proto__] is an
    accessor, the others are functions. *)
Definition object_prototype_names : list string :=
  [ "constructor"; "__defineGetter__"; "__defineSetter__"; "hasOwnProperty";
    "__lookupGetter__"; "__lookupSetter__"; "isPrototypeOf";
    "propertyIsEnumerable"; "toString"; "valueOf"; "__proto__";
    "toLocaleString" ].

(** The functions of [Array.prototype] (ECMAScript 2023); its [length] is
    always hidden by the own [length] of an array. *)
Definition array_prototype_names : list string :=
  [ "constructor"; "at"; "concat"; "copyWithin"; "fill"; "find"; "findIndex";
    "findLast"; "findLastIndex"; "lastIndexOf"; "pop"; "push"; "reverse";
    "shift"; "unshift"; "slice"; "sort"; "splice"; "includes"; "indexOf";
    "join"; "keys"; "entries"; "values"; "forEach"; "filter"; "flat";
    "flatMap"; "map"; "every"; "some"; "reduce"; "reduceRight";
    "toLocaleString"; "toString"; "toReversed"; "toSorted"; "toSpliced";
    "with" ].

Definition in_names (k : string) (names : list string) : bool :=
  existsb (String.eqb k) names.

(** The prototype of a plain object: [Object.prototype] until a write to
    [__proto__] puts an array, an object or [null] in its place. *)
Inductive prototype :=
  | ObjectPrototype
  | ArrayValue (items : list value)
  | ObjectValue (fields : list (string * value))
  | NullPrototype.

Record t := { own : gmap string value; proto : prototype }.

(** [{}] *)
Definition new : t := {| own := ∅; proto := ObjectPrototype |}.

(** The field [k] of a parsed object; of two fields with one key
    [JSON.parse] keeps the later. *)
Fixpoint field (k : string) (fields : list (string * value)) : option value :=
  match fields with
  | [] => None
  | (k', v) :: rest =>
      match field k rest with
      | Some v' => Some v'
      | None => if String.eqb k' k then Some v else None
      end
  end.

(** The property name of the array index [i]. *)
Definition index_key (i : nat) : string := NilEmpty.string_of_uint (Nat.to_uint i).

(** The element of an array whose property name is [k]; [items] start at
    index [i]. *)
Fixpoint element (k : string) (i : nat) (items : list value) : option value :=
  match items with
  | [] => None
  | v :: rest => if String.eqb (index_key i) k then Some v else element k (S i) rest
  end.

(** The own property [k] of the object a prototype is. *)
Definition own_of_prototype (p : prototype) (k : string) : option value :=
  match p with
  | ObjectValue fields => field k fields
  | ArrayValue items =>
      if String.eqb k "length" then Some (VNum (of_Z (Z.of_nat (length items))))
      else element k 0 items
  | ObjectPrototype | NullPrototype => None
  end.

(** The prototype as a value: what the getter of [__proto__] returns. *)
Definition prototype_value (p : prototype) : jsval :=
  match p with
  | ObjectPrototype => Native "Object.prototype"
  | ArrayValue items => Data (VArr items)
  | ObjectValue fields => Data (VObj fields)
  | NullPrototype => Data VNull
  end.

(** A member of [Object.prototype], read on an object whose prototype is
    [p]. *)
Definition from_object_prototype (p : prototype) (k : string) : option jsval :=
  if String.eqb k "__proto__" then Some (prototype_value p)
  else if String.eqb k "constructor" then Some (Native "Object")
  else if in_names k object_prototype_names then Some (Native ("Object.prototype." ++ k))
  else None.

Definition from_array_prototype (k : string) : option jsval :=
  if String.eqb k "constructor" then Some (Native "Array")
  else if in_names k array_prototype_names then Some (Native ("Array.prototype." ++ k))
  else None.

(** [o[k]]; [None] is [undefined]. *)
Definition get (k : string) (o : t) : option jsval :=
  match own o !! k with
  | Some v => Some (Data v)
  | None =>
      match own_of_prototype (proto o) k with
      | Some v => Some (Data v)
      | None =>
          match proto o with
          | NullPrototype => None
          | ArrayValue _ =>
              match from_array_prototype k with
              | Some x => Some x
              | None => from_object_prototype (proto o) k
              end
          | ObjectPrototype | ObjectValue _ => from_object_prototype (proto o) k
          end
      end
  end.

(** Does a write to [__proto__] reach the accessor of [Object.prototype]?
    Not when the chain ends at [null], nor when the object in the chain has
    a field of that name, as [JSON.parse] can give it. *)
Definition reaches_accessor (p : prototype) : bool :=
  match p with
  | ObjectPrototype | ArrayValue _ => true
  | ObjectValue fields => negb (bool_decide (is_Some (field "__proto__" fields)))
  | NullPrototype => false
  end.

(** [o[k] = v] with [k] a plain key: an own property is defined or
    updated. *)
Definition define (k : string) (v : value) (o : t) : t :=
  {| own := <[k := v]> (own o); proto := proto o |}.

(** [o[k] = v].  Every property found along the chain is writable data, so
    the write defines an own property, unless [k] is [__proto__], [o] has no
    own property of that name and the accessor is reached: then an object or
    [null] becomes the prototype of [o] and any other value is ignored. *)
Definition set (k : string) (v : value) (o : t) : t :=
  if String.eqb k "__proto__"
     && negb (bool_decide (is_Some (own o !! k)))
     && reaches_accessor (proto o)
  then
    match v with
    | VObj fields => {| own := own o; proto := ObjectValue fields |}
    | VArr items => {| own := own o; proto := ArrayValue items |}
    | VNull => {| own := own o; proto := NullPrototype |}
    | _ => o
    end
  else define k v o.

End Plain.

Export Plain (jsval, Data, Native).

#[global] Instance plain_lookup : Lookup string jsval Plain.t := Plain.get.

(** ** Results of fallible handlers *)

(** A handler either answers with a body ([res.json(a)], status 200) or with
    [res.status(status).json({ error })]. *)
Inductive result (A : Type) :=
  | Ok (a : A)
  | Err (status : nat) (error : string).
Arguments Ok {A} a.
Arguments Err {A} status error.

(** A gate that fails ends the request: [x ← gate; handler]. *)
#[global] Instance result_bind : MBind result := fun A B k r =>
  match r with
  | Ok a => k a
  | Err st e => Err st e
  end.

Definition Unauthorized {A} (error : string) : result A := Err 401 error.

(** ** The stores *)

Module Business.
Record t := { name : value; industry : value; timezone : value }.
End Business.

Module Booking.
Record t := {
  id : string; businessId : string;
  clientName : value; contact : value; service : value; when : value;
  staffId : value; notes : value; status : string }.
End Booking.

Module Lead.
Record t := {
  id : string; businessId : string;
  name : value; contact : value; service : value; budget : value;
  source : value; notes : value }.
End Lead.

Module Staff.
Record t := {
  id : string; businessId : string;
  name : value; nationalId : value; pin : value; role : value }.
End Staff.

Module Attendance.
Inductive type := In | Out.
(** [staffId] and [businessId] are what the session holds, whatever it is.
    [timestamp] is the instant of [now()]; the source stores its ISO-8601
    rendering. *)
Record t := {
  id : string; staffId : value; businessId : value;
  type_ : type; timestamp : Z }.
End Attendance.

Module Overtime.
Record t := {
  id : string; staffId : value; businessId : value;
  hours : value; reason : value; status : string }.
End Overtime.

(** The module-level constants of server.js.

    [businesses] is the own properties of the object: it is written at keys
    [uuid()] returns only, which are never [__proto__], so its prototype
    stays [Object.prototype] and a read of it also finds the names of
    [Plain.object_prototype_names].  [faqs] is written at keys that come
    from a header and is a [Plain.t] with its prototype. *)
Record state := {
  businesses : gmap string Business.t;
  bookings : list Booking.t;
  leads : list Lead.t;
  staff : list Staff.t;
  attendance : list Attendance.t;
  overtime : list Overtime.t;
  faqs : Plain.t }.

Definition empty_state : state :=
  {| businesses := ∅; bookings := []; leads := []; staff := [];
     attendance := []; overtime := []; faqs := Plain.new |}.

(** [process.env.JWT_SECRET || "dev-secret-change-me"] *)
Definition JWT_SECRET (env : option string) : string :=
  match env with
  | Some s => if String.eqb s "" then "dev-secret-change-me" else s
  | None => "dev-secret-change-me"
  end.

(** The two headers the gates read. *)
Record headers := {
  x_business_id : option string;
  authorization : option string }.

(** ** The tenant gate *)

(** [businesses[bid]] is truthy: [bid] is an own key, whose value is an
    object, or a name [businesses] inherits from [Object.prototype], whose
    value is a function or, for [__proto__], the prototype itself. *)
Definition known (st : state) (bid : string) : bool :=
  match businesses st !! bid with
  | Some _ => true
  | None => Plain.in_names bid Plain.object_prototype_names
  end.

Definition requireBiz (st : state) (h : headers) : result string :=
  match x_business_id h with
  | None => Unauthorized "Missing or invalid X-Business-Id"
  | Some bid =>
      if String.eqb bid "" then Unauthorized "Missing or invalid X-Business-Id"
      else if known st bid then Ok bid
      else Unauthorized "Missing or invalid X-Business-Id"
  end.

(** ** Business bootstrap *)

Record business_body := { bb_name : value; bb_industry : value; bb_timezone : value }.

Definition default_faqs : value :=
  VArr [ VObj [("q", VStr "What are your hours?"); ("a", VStr "Mon–Sat 9:00–18:00")];
         VObj [("q", VStr "Do you accept walk-ins?"); ("a", VStr "Yes, subject to availability.")] ].

(** [POST /business/create]; [id] is the value [uuid()] returns: 36
    characters, hexadecimal digits and dashes, so the two writes define own
    properties. *)
Definition post_business_create (id : string) (body : business_body) (st : state)
  : (string * Business.t) * state :=
  let b := {| Business.name := bb_name body;
              Business.industry := bb_industry body;
              Business.timezone :=
                or_else (bb_timezone body) (VStr "Africa/Johannesburg") |} in
  ((id, b),
   {| businesses := <[id := b]> (businesses st);
      bookings := bookings st; leads := leads st; staff := staff st;
      attendance := attendance st; overtime := overtime st;
      faqs := Plain.define id default_faqs (faqs st) |}).

Definition with_bookings (st : state) (l : list Booking.t) : state :=
  {| businesses := businesses st; bookings := l; leads := leads st;
     staff := staff st; attendance := attendance st; overtime := overtime st;
     faqs := faqs st |}.

Definition with_leads (st : state) (l : list Lead.t) : state :=
  {| businesses := businesses st; bookings := bookings st; leads := l;
     staff := staff st; attendance := attendance st; overtime := overtime st;
     faqs := faqs st |}.

Definition with_staff (st : state) (l : list Staff.t) : state :=
  {| businesses := businesses st; bookings := bookings st; leads := leads st;
     staff := l; attendance := attendance st; overtime := overtime st;
     faqs := faqs st |}.

Definition with_attendance (st : state) (l : list Attendance.t) : state :=
  {| businesses := businesses st; bookings := bookings st; leads := leads st;
     staff := staff st; attendance := l; overtime := overtime st;
     faqs := faqs st |}.

Definition with_overtime (st : state) (l : list Overtime.t) : state :=
  {| businesses := businesses st; bookings := bookings st; leads := leads st;
     staff := staff st; attendance := attendance st; overtime := l;
     faqs := faqs st |}.

Definition with_faqs (st : state) (m : Plain.t) : state :=
  {| businesses := businesses st; bookings := bookings st; leads := leads st;
     staff := staff st; attendance := attendance st; overtime := overtime st;
     faqs := m |}.

(** ** Session tokens *)

(** A payload to sign: [post_staff_login] signs strings for [staffId] and
    [businessId], whoever else holds the secret signs what they like. *)
Module Claims.
Record t := { staffId : value; businessId : value; role : value }.
End Claims.

(** What [jwt.verify] returns: the payload with its issue and expiry times,
    in seconds. *)
Module Session.
Record t := {
  staffId : value; businessId : value; role : value;
  iat : Z; exp : Z }.
End Session.

(** The jsonwebtoken package, as far as server.js uses it.
    [jwt_sign payload secret expiresIn clock] is [jwt.sign] with
    [{ expiresIn }] in seconds, called when the clock shows [clock];
    [jwt_verify token secret clock] is [jwt.verify], [None] when it throws.
    A signed token verifies under the same secret until it expires, never
    under another secret, and its compact form is a non-empty string with no
    space in it (three base64url segments joined by dots).  The payload is
    taken to be one that JSON serialisation gives back as it was. *)
Class Jwt := {
  jwt_sign : Claims.t -> string -> Z -> Z -> string;
  jwt_verify : string -> string -> Z -> option Session.t;
  jwt_verify_sign : forall p secret ttl clock clock',
    clock' < clock + ttl ->
    jwt_verify (jwt_sign p secret ttl clock) secret clock' =
    Some {| Session.staffId := Claims.staffId p;
            Session.businessId := Claims.businessId p;
            Session.role := Claims.role p;
            Session.iat := clock; Session.exp := clock + ttl |};
  jwt_verify_expired : forall p secret ttl clock clock',
    clock + ttl <= clock' ->
    jwt_verify (jwt_sign p secret ttl clock) secret clock' = None;
  jwt_verify_secret : forall p secret secret' ttl clock clock',
    secret <> secret' ->
    jwt_verify (jwt_sign p secret ttl clock) secret' clock' = None;
  jwt_sign_compact : forall p secret ttl clock,
    jwt_sign p secret ttl clock <> EmptyString /\
    occurs " " (jwt_sign p secret ttl clock) = false }.

(** Request bodies, one record per destructuring pattern of server.js; a
    field the body lacks is [VUndefined]. *)
Record login_body := { lb_name : value; lb_nationalId : value; lb_pin : value }.
Record staff_body :=
  { sb_name : value; sb_nationalId : value; sb_pin : value; sb_role : value }.
Record overtime_body := { ob_hours : value; ob_reason : value }.
Record booking_body := {
  kb_clientName : value; kb_contact : value; kb_service : value;
  kb_when : value; kb_staffId : value; kb_notes : value }.
Record lead_body := {
  ld_name : value; ld_contact : value; ld_service : value;
  ld_budget : value; ld_source : value; ld_notes : value }.
Record faqs_body := { items : value }.

Record login_response := {
  token : string;
  staff_id : string; staff_name : value; staff_role : value }.

(** ["8h"] in seconds. *)
Definition expiresIn : Z := 8 * 3600.

Section Handlers.

Context {jwt : Jwt}.

(** [process.env.JWT_SECRET] *)
Variable env : option string.

(** *** Staff auth *)

(** The callback of [staff.find] in the login handler. *)
Definition credentials_match (bid : string) (body : login_body) (x : Staff.t) : bool :=
  String.eqb (Staff.businessId x) bid
  && strict_eq (Staff.name x) (lb_name body)
  && strict_eq (Staff.nationalId x) (lb_nationalId body)
  && strict_eq (Staff.pin x) (lb_pin body).

(** [POST /staff/login] *)
Definition post_staff_login (clock : Z) (h : headers) (body : login_body)
    (st : state) : result login_response :=
  bid ← requireBiz st h;
  match List.find (credentials_match bid body) (staff st) with
  | None => Unauthorized "Invalid credentials"
  | Some s =>
      let token :=
        jwt_sign {| Claims.staffId := VStr (Staff.id s);
                    Claims.businessId := VStr bid;
                    Claims.role := Staff.role s |}
                 (JWT_SECRET env) expiresIn clock in
      Ok {| token := token;
            staff_id := Staff.id s; staff_name := Staff.name s;
            staff_role := Staff.role s |}
  end.

(** The staff gate. *)
Definition requireStaff (clock : Z) (h : headers) : result Session.t :=
  match authorization h with
  | None => Unauthorized "Missing Authorization"
  | Some auth =>
      if String.eqb auth "" then Unauthorized "Missing Authorization"
      else
        let token := replace "Bearer " "" auth in
        match jwt_verify token (JWT_SECRET env) clock with
        | Some user => Ok user
        | None => Unauthorized "Invalid token"
        end
  end.

(** [POST /staff/create] *)
Definition post_staff_create (id : string) (h : headers) (body : staff_body)
    (st : state) : result (string * state) :=
  bid ← requireBiz st h;
  let s := {| Staff.id := id; Staff.businessId := bid;
              Staff.name := sb_name body;
              Staff.nationalId := sb_nationalId body;
              Staff.pin := sb_pin body;
              Staff.role := or_else (sb_role body) (VStr "staff") |} in
  Ok (id, with_staff st (staff st ++ [s])).

(** *** Staff agenda, attendance, overtime *)

Definition on_agenda (user : Session.t) (b : Booking.t) : bool :=
  strict_eq (VStr (Booking.businessId b)) (Session.businessId user)
  && strict_eq (Booking.staffId b) (Session.staffId user)
  && negb (String.eqb (Booking.status b) "cancelled").

(** [GET /staff/agenda] *)
Definition get_staff_agenda (clock : Z) (h : headers) (st : state)
  : result (list Booking.t) :=
  user ← requireStaff clock h;
  Ok (List.filter (on_agenda user) (bookings st)).

Definition clock_event (ty : Attendance.type) (id : string) (clock : Z)
    (h : headers) (st : state) : result (bool * state) :=
  user ← requireStaff clock h;
  let e := {| Attendance.id := id;
              Attendance.staffId := Session.staffId user;
              Attendance.businessId := Session.businessId user;
              Attendance.type_ := ty; Attendance.timestamp := clock |} in
  Ok (true, with_attendance st (attendance st ++ [e])).

(** [POST /staff/clock-in] and [POST /staff/clock-out] *)
Definition post_staff_clock_in := clock_event Attendance.In.
Definition post_staff_clock_out := clock_event Attendance.Out.

(** [POST /staff/overtime] *)
Definition post_staff_overtime (id : string) (clock : Z) (h : headers)
    (body : overtime_body) (st : state) : result (Overtime.t * state) :=
  user ← requireStaff clock h;
  let entry := {| Overtime.id := id;
                  Overtime.staffId := Session.staffId user;
                  Overtime.businessId := Session.businessId user;
                  Overtime.hours := ob_hours body;
                  Overtime.reason := ob_reason body;
                  Overtime.status := "pending" |} in
  Ok (entry, with_overtime st (overtime st ++ [entry])).

(** *** Bookings and leads *)

(** [POST /bookings] *)
Definition post_bookings (id : string) (h : headers) (body : booking_body)
    (st : state) : result (Booking.t * state) :=
  bid ← requireBiz st h;
  let entry := {| Booking.id := id; Booking.businessId := bid;
                  Booking.clientName := kb_clientName body;
                  Booking.contact := kb_contact body;
                  Booking.service := kb_service body;
                  Booking.when := kb_when body;
                  Booking.staffId := or_else (kb_staffId body) VNull;
                  Booking.notes := or_else (kb_notes body) (VStr "");
                  Booking.status := "confirmed" |} in
  Ok (entry, with_bookings st (bookings st ++ [entry])).

(** [GET /bookings] *)
Definition get_bookings (h : headers) (st : state) : result (list Booking.t) :=
  bid ← requireBiz st h;
  Ok (List.filter (fun b => String.eqb (Booking.businessId b) bid) (bookings st)).

(** [POST /leads] *)
Definition post_leads (id : string) (h : headers) (body : lead_body)
    (st : state) : result (Lead.t * state) :=
  bid ← requireBiz st h;
  let entry := {| Lead.id := id; Lead.businessId := bid;
                  Lead.name := ld_name body; Lead.contact := ld_contact body;
                  Lead.service := ld_service body; Lead.budget := ld_budget body;
                  Lead.source := ld_source body; Lead.notes := ld_notes body |} in
  Ok (entry, with_leads st (leads st ++ [entry])).

(** *** FAQs *)

(** [GET /faqs] *)
Definition get_faqs (h : headers) (st : state) : result jsval :=
  bid ← requireBiz st h;
  Ok (match faqs st !! bid with
      | Some x => if Plain.truthy x then x else Data (VArr [])
      | None => Data (VArr [])
      end).

(** [POST /faqs]; the answer is [{ ok: true }]. *)
Definition post_faqs (h : headers) (body : faqs_body) (st : state)
  : result (bool * state) :=
  bid ← requireBiz st h;
  Ok (true, with_faqs st (Plain.set bid (or_else (items body) (VArr [])) (faqs st))).

End Handlers.

(** ** Insights: the forecast *)

(** The body of [POST /insights/forecast]; [None] is a field the body lacks,
    and a field it has is taken to be a JSON number. *)
Record forecast_body := {
  fb_baselineWeeklyRevenue : option number;
  fb_marketingSpend : option number }.

Record forecast_result := {
  baselineWeeklyRevenue : number;
  projectedWeeklyRevenue : number;
  assumedLifts : number * number;
  marketingSpend : number;
  estimatedROI : number }.

Definition paydayBoost : number := literal 12 100.
Definition trendBoost : number := literal 5 100.

(** [1 + paydayBoost + trendBoost] *)
Definition lift : number := add (add (of_Z 1) paydayBoost) trendBoost.

Definition projected (baseline : number) : number :=
  Math_round (mul baseline lift).

Definition roi (baseline spend : number) : number :=
  div (sub (sub (projected baseline) baseline) spend) spend.

(** What the handler passes to [res.json]. *)
Definition forecast (body : forecast_body) : forecast_result :=
  let baseline := default (of_Z 10000) (fb_baselineWeeklyRevenue body) in
  let spend := default (of_Z 1500) (fb_marketingSpend body) in
  {| baselineWeeklyRevenue := baseline;
     projectedWeeklyRevenue := projected baseline;
     assumedLifts := (paydayBoost, trendBoost);
     marketingSpend := spend;
     estimatedROI := Number (toFixed (roi baseline spend) 2) |}.

(** [POST /insights/forecast] *)
Definition post_insights_forecast (h : headers) (body : forecast_body)
    (st : state) : result forecast_result :=
  _ ← requireBiz st h;
  Ok (forecast body).

(** The projection as the specification words it: the two lifts applied one
    after the other, [baseline × 1.12 × 1.05], then rounded. *)
Definition projected_compound (baseline : number) : number :=
  Math_round (mul (mul baseline (literal 112 100)) (literal 105 100)).

(** ** Requests that create, requests that list *)

Inductive create_request :=
  | PostBookings (id : string) (h : headers) (body : booking_body)
  | PostLeads (id : string) (h : headers) (body : lead_body)
  | PostStaffCreate (id : string) (h : headers) (body : staff_body)
  | PostStaffClockIn (id : string) (h : headers)
  | PostStaffClockOut (id : string) (h : headers)
  | PostStaffOvertime (id : string) (h : headers) (body : overtime_body)
  | PostFaqs (h : headers) (body : faqs_body).

Inductive list_request :=
  | GetBookings (h : headers)
  | GetStaffAgenda (h : headers)
  | GetFaqs (h : headers).

(** What a list request answers with. *)
Inductive listing :=
  | Bookings (l : list Booking.t)
  | Agenda (l : list Booking.t)
  | Faqs (v : jsval).

Section Requests.

Context {jwt : Jwt}.
Variable env : option string.

(** The state a handler leaves behind; a request a gate refuses changes
    nothing. *)
Definition state_after {A} (st : state) (r : result (A * state)) : state :=
  match r with
  | Ok (_, st') => st'
  | Err _ _ => st
  end.

Definition run_create (clock : Z) (r : create_request) (st : state) : state :=
  match r with
  | PostBookings id h body => state_after st (post_bookings id h body st)
  | PostLeads id h body => state_after st (post_leads id h body st)
  | PostStaffCreate id h body => state_after st (post_staff_create id h body st)
  | PostStaffClockIn id h => state_after st (post_staff_clock_in env id clock h st)
  | PostStaffClockOut id h => state_after st (post_staff_clock_out env id clock h st)
  | PostStaffOvertime id h body =>
      state_after st (post_staff_overtime env id clock h body st)
  | PostFaqs h body => state_after st (post_faqs h body st)
  end.

Definition run_list (clock : Z) (q : list_request) (st : state) : result listing :=
  match q with
  | GetBookings h => l ← get_bookings h st; Ok (Bookings l)
  | GetStaffAgenda h => l ← get_staff_agenda env clock h st; Ok (Agenda l)
  | GetFaqs h => v ← get_faqs h st; Ok (Faqs v)
  end.

(** The tenant a gate resolves a request to: the header's business for the
    tenant gate, the session's business for the staff gate. *)
Definition tenant_of_gate (staff_gated : bool) (clock : Z) (h : headers)
    (st : state) : option value :=
  if staff_gated then
    match requireStaff env clock h with
    | Ok user => Some (Session.businessId user)
    | Err _ _ => None
    end
  else
    match requireBiz st h with
    | Ok bid => Some (VStr bid)
    | Err _ _ => None
    end.

Definition create_tenant (clock : Z) (r : create_request) (st : state)
  : option value :=
  match r with
  | PostBookings _ h _ | PostLeads _ h _ | PostStaffCreate _ h _ | PostFaqs h _ =>
      tenant_of_gate false clock h st
  | PostStaffClockIn _ h | PostStaffClockOut _ h | PostStaffOvertime _ h _ =>
      tenant_of_gate true clock h st
  end.

Definition list_tenant (clock : Z) (q : list_request) (st : state)
  : option value :=
  match q with
  | GetBookings h | GetFaqs h => tenant_of_gate false clock h st
  | GetStaffAgenda h => tenant_of_gate true clock h st
  end.

(** The booking a create request stores, if it stores one. *)
Definition created_booking (r : create_request) (st : state) : option Booking.t :=
  match r with
  | PostBookings id h body =>
      match post_bookings id h body st with
      | Ok (entry, _) => Some entry
      | Err _ _ => None
      end
  | _ => None
  end.


(** A sequence of create requests, each with the time it arrives at. *)
Fixpoint run_creates (rs : list (Z * create_request)) (st : state) : state :=
  match rs with
  | [] => st
  | (clock, r) :: rs' => run_creates rs' (run_create clock r st)
  end.

(** Every request of the sequence is resolved, in the state it runs in, to
    a tenant other than [B] and other than [__proto__]. *)
Fixpoint others_only (B : string) (rs : list (Z * create_request)) (st : state)
  : Prop :=
  match rs with
  | [] => True
  | (clock, r) :: rs' =>
      (exists A, create_tenant clock r st = Some (VStr A) /\
                 A <> B /\ A <> "__proto__") /\
      others_only B rs' (run_create clock r st)
  end.

End Requests.

(** The two bodies of the forecast examples. *)
Definition literal_body : forecast_body :=
  {| fb_baselineWeeklyRevenue := Some (of_Z 10000);
     fb_marketingSpend := Some (of_Z 1500) |}.

Definition empty_body : forecast_body :=
  {| fb_baselineWeeklyRevenue := None; fb_marketingSpend := None |}.

(** The double [1 + 0.12 + 0.05] evaluates to: 1.1700000000000002, one unit
    in the last place above the double nearest to 1.17. *)
Definition lift_value : number := S754_finite false 5269211564023481 (-52).

(** Do the projections of the [count] whole numbers from [n] on agree with
    the integer nearest to [117 n / 100], halves up? *)
Fixpoint whole_numbers_agree (count : nat) (n : Z) : bool :=
  match count with
  | O => true
  | S count' =>
      match projected (of_Z n), of_Z ((117 * n + 50) / 100) with
      | S754_zero false, S754_zero false => whole_numbers_agree count' (n + 1)
      | S754_finite false m e, S754_finite false m' e' =>
          Pos.eqb m m' && Z.eqb e e' && whole_numbers_agree count' (n + 1)
      | _, _ => false
      end
  end.

(** ** A reference implementation of the token interface

    The laws of [Jwt] are those of an idealised signature.  They are
    consistent: the implementation below, which writes the payload, the
    secret and the two times into the token in binary, satisfies them. *)

Module ReferenceJwt.

Definition leaf : Type := bool + bool * positive * Z + string.

Fixpoint to_tree (v : value) : gen_tree leaf :=
  match v with
  | VUndefined => GenNode 0 []
  | VNull => GenNode 1 []
  | VBool b => GenNode 2 [GenLeaf (inl (inl b))]
  | VNum (S754_zero s) => GenNode 3 [GenLeaf (inl (inl s))]
  | VNum (S754_infinity s) => GenNode 4 [GenLeaf (inl (inl s))]
  | VNum S754_nan => GenNode 5 []
  | VNum (S754_finite s m e) => GenLeaf (inl (inr (s, m, e)))
  | VStr s => GenLeaf (inr s)
  | VArr l => GenNode 6 (List.map to_tree l)
  | VObj l =>
      GenNode 7 (List.map (fun kv => GenNode 8 [GenLeaf (inr (fst kv)); to_tree (snd kv)]) l)
  end.

Fixpoint of_tree (t : gen_tree leaf) : value :=
  match t with
  | GenNode 0 _ => VUndefined
  | GenNode 1 _ => VNull
  | GenNode 2 [GenLeaf (inl (inl b))] => VBool b
  | GenNode 3 [GenLeaf (inl (inl s))] => VNum (S754_zero s)
  | GenNode 4 [GenLeaf (inl (inl s))] => VNum (S754_infinity s)
  | GenNode 5 _ => VNum S754_nan
  | GenLeaf (inl (inr (s, m, e))) => VNum (S754_finite s m e)
  | GenLeaf (inr s) => VStr s
  | GenNode 6 l => VArr (List.map of_tree l)
  | GenNode 7 l =>
      VObj (List.map (fun t =>
              match t with
              | GenNode _ [GenLeaf (inr k); tv] => (k, of_tree tv)
              | _ => (EmptyString, VUndefined)
              end) l)
  | _ => VUndefined
  end.

Fixpoint pos_to_string (p : positive) : string :=
  match p with
  | xH => "."
  | xO p => String "0" (pos_to_string p)
  | xI p => String "1" (pos_to_string p)
  end.

Fixpoint string_to_pos (s : string) : option positive :=
  match s with
  | String c s' =>
      if Ascii.eqb c "." then Some xH
      else if Ascii.eqb c "0" then xO <$> string_to_pos s'
      else if Ascii.eqb c "1" then xI <$> string_to_pos s'
      else None
  | EmptyString => None
  end.

Definition signed : Type :=
  gen_tree leaf * gen_tree leaf * gen_tree leaf * string * Z * Z.

Definition sign (p : Claims.t) (secret : string) (ttl clock : Z) : string :=
  pos_to_string
    (encode ((to_tree (Claims.staffId p), to_tree (Claims.businessId p),
              to_tree (Claims.role p), secret, clock, clock + ttl) : signed)).

Definition verify (tok secret : string) (clock : Z) : option Session.t :=
  match string_to_pos tok ≫= decode (A := signed) with
  | Some (sid, bid, r, key, iat, exp) =>
      if String.eqb key secret && (clock <? exp) then
        Some {| Session.staffId := of_tree sid;
                Session.businessId := of_tree bid;
                Session.role := of_tree r;
                Session.iat := iat; Session.exp := exp |}
      else None
  | None => None
  end.

Lemma of_to_tree : forall v, of_tree (to_tree v) = v.
Proof.
  fix IH 1. intros [| |b|x|s|l|l]; simpl; try reflexivity.
  - destruct x; reflexivity.
  - f_equal. induction l as [|a l IHl]; simpl; [reflexivity|].
    rewrite IH, IHl. reflexivity.
  - f_equal. induction l as [|[k a] l IHl]; simpl; [reflexivity|].
    rewrite IH, IHl. reflexivity.
Qed.

Lemma string_to_pos_to_string p : string_to_pos (pos_to_string p) = Some p.
Proof. induction p as [p IHp|p IHp|]; simpl; rewrite ?IHp; reflexivity. Qed.

Lemma pos_to_string_compact p :
  pos_to_string p <> EmptyString /\ occurs " " (pos_to_string p) = false.
Proof.
  split; [destruct p; discriminate|].
  induction p as [p IHp|p IHp|]; simpl; rewrite ?IHp; reflexivity.
Qed.

Lemma verify_sign_decoded p secret ttl clock secret' clock' :
  verify (sign p secret ttl clock) secret' clock' =
  if String.eqb secret secret' && (clock' <? clock + ttl) then
    Some {| Session.staffId := Claims.staffId p;
            Session.businessId := Claims.businessId p;
            Session.role := Claims.role p;
            Session.iat := clock; Session.exp := clock + ttl |}
  else None.
Proof.
  unfold verify, sign. rewrite string_to_pos_to_string. simpl.
  rewrite decode_encode, !of_to_tree. reflexivity.
Qed.

Lemma verify_sign_valid p secret ttl clock clock' :
  clock' < clock + ttl ->
  verify (sign p secret ttl clock) secret clock' =
  Some {| Session.staffId := Claims.staffId p;
          Session.businessId := Claims.businessId p;
          Session.role := Claims.role p;
          Session.iat := clock; Session.exp := clock + ttl |}.
Proof.
  intros Hlt. rewrite verify_sign_decoded, String.eqb_refl.
  destruct (Z.ltb_spec clock' (clock + ttl)); [reflexivity | lia].
Qed.

Lemma verify_sign_expired p secret ttl clock clock' :
  clock + ttl <= clock' -> verify (sign p secret ttl clock) secret clock' = None.
Proof.
  intros Hle. rewrite verify_sign_decoded.
  destruct (Z.ltb_spec clock' (clock + ttl)); [lia|].
  rewrite andb_false_r. reflexivity.
Qed.

Lemma verify_sign_secret p secret secret' ttl clock clock' :
  secret <> secret' -> verify (sign p secret ttl clock) secret' clock' = None.
Proof.
  intros Hne. rewrite verify_sign_decoded.
  destruct (String.eqb_spec secret secret'); [contradiction | reflexivity].
Qed.

Lemma sign_compact p secret ttl clock :
  sign p secret ttl clock <> EmptyString /\
  occurs " " (sign p secret ttl clock) = false.
Proof. apply pos_to_string_compact. Qed.

Definition reference : Jwt :=
  {| jwt_sign := sign; jwt_verify := verify;
     jwt_verify_sign := verify_sign_valid;
     jwt_verify_expired := verify_sign_expired;
     jwt_verify_secret := verify_sign_secret;
     jwt_sign_compact := sign_compact |}.

End ReferenceJwt.

(** ** Sample data

    One tenant with one member of staff, used to run the handlers on
    concrete requests. *)

Module Sample.

Definition tenant (bid : string) : headers :=
  {| x_business_id := Some bid; authorization := None |}.

Definition authorized (auth : string) : headers :=
  {| x_business_id := None; authorization := Some auth |}.

Definition salon : state :=
  snd (post_business_create "b1"
         {| bb_name := VStr "Salon"; bb_industry := VStr "beauty";
            bb_timezone := VUndefined |} empty_state).

Definition jo : Staff.t :=
  {| Staff.id := "s1"; Staff.businessId := "b1"; Staff.name := VStr "Jo";
     Staff.nationalId := VStr "123"; Staff.pin := VStr "9999";
     Staff.role := VStr "staff" |}.

Definition salon_with_jo : state := with_staff salon [jo].

Definition jo_login : login_body :=
  {| lb_name := VStr "Jo"; lb_nationalId := VStr "123"; lb_pin := VStr "9999" |}.

(** A second tenant, with a booking of its own. *)
Definition two_salons : state :=
  with_bookings
    (snd (post_business_create "b2"
            {| bb_name := VStr "Barber"; bb_industry := VStr "grooming";
               bb_timezone := VStr "Africa/Harare" |} salon_with_jo))
    [ {| Booking.id := "k1"; Booking.businessId := "b2";
         Booking.clientName := VStr "Sam"; Booking.contact := VStr "555";
         Booking.service := VStr "cut"; Booking.when := VStr "2025-01-10T09:00";
         Booking.staffId := VNull; Booking.notes := VStr "";
         Booking.status := "confirmed" |} ].

Definition cut_for_ann : booking_body :=
  {| kb_clientName := VStr "Ann"; kb_contact := VStr "556";
     kb_service := VStr "colour"; kb_when := VStr "2025-01-11T10:00";
     kb_staffId := VStr "s1"; kb_notes := VUndefined |}.

Definition ann_books : create_request :=
  PostBookings "k2" (tenant "b1") cut_for_ann.

Definition barber_lists : list_request := GetBookings (tenant "b2").

(** The payload and the token of Jo's login at time 0, under the default
    secret and the reference implementation. *)
Definition jo_claims : Claims.t :=
  {| Claims.staffId := VStr "s1"; Claims.businessId := VStr "b1";
     Claims.role := VStr "staff" |}.

Definition jo_token : string :=
  ReferenceJwt.sign jo_claims "dev-secret-change-me" expiresIn 0.

Definition jo_logged_in : login_response :=
  {| token := jo_token; staff_id := "s1"; staff_name := VStr "Jo";
     staff_role := VStr "staff" |}.

Definition jo_session : Session.t :=
  {| Session.staffId := VStr "s1"; Session.businessId := VStr "b1";
     Session.role := VStr "staff";
     Session.iat := 0; Session.exp := 0 + expiresIn |}.

Definition ten_thousand_no_spend : forecast_body :=
  {| fb_baselineWeeklyRevenue := Some (of_Z 10000);
     fb_marketingSpend := Some (of_Z 0) |}.

End Sample.

(** ** Requests that change the stores

    Besides the seven create requests there is the business bootstrap; every
    other route only reads. *)

Inductive request :=
  | PostBusinessCreate (id : string) (body : business_body)
  | Create (clock : Z) (r : create_request).

Section Server.

Context {jwt : Jwt}.
Variable env : option string.

Definition step (rq : request) (st : state) : state :=
  match rq with
  | PostBusinessCreate id body => snd (post_business_create id body st)
  | Create clock r => run_create env clock r st
  end.

(** The requests of [rqs], handled one after the other. *)
Fixpoint run (rqs : list request) (st : state) : state :=
  match rqs with
  | [] => st
  | rq :: rqs' => run rqs' (step rq st)
  end.

End Server.

(** How many records the five arrays hold. *)
Definition records (st : state) : nat :=
  (length (bookings st) + length (leads st) + length (staff st)
   + length (attendance st) + length (overtime st))%nat.

(** [st'] has everything [st] has: each array of [st] is a prefix of the one
    of [st'], and each registered business is still registered. *)
Record extends (st st' : state) : Prop := {
  extends_businesses :
    forall bid, is_Some (businesses st !! bid) -> is_Some (businesses st' !! bid);
  extends_bookings : bookings st `prefix_of` bookings st';
  extends_leads : leads st `prefix_of` leads st';
  extends_staff : staff st `prefix_of` staff st';
  extends_attendance : attendance st `prefix_of` attendance st';
  extends_overtime : overtime st `prefix_of` overtime st' }.

(** The test of the agenda without its [status] part. *)
Definition assigned_to (user : Session.t) (b : Booking.t) : bool :=
  strict_eq (VStr (Booking.businessId b)) (Session.businessId user)
  && strict_eq (Booking.staffId b) (Session.staffId user).

(** The session [jwt.verify] returns for a payload signed at [clock] for
    [ttl] seconds. *)
Definition session_of (p : Claims.t) (clock ttl : Z) : Session.t :=
  {| Session.staffId := Claims.staffId p;
     Session.businessId := Claims.businessId p;
     Session.role := Claims.role p;
     Session.iat := clock; Session.exp := clock + ttl |}.

(** What the handlers establish for every record they store: the defaults
    they fill in, and an id the tenant gate knows.  A registered business
    has a FAQ entry of its own. *)
Record well_formed (st : state) : Prop := {
  wf_timezone :
    map_Forall (fun _ b => truthy (Business.timezone b) = true) (businesses st);
  wf_faqs :
    forall bid, is_Some (businesses st !! bid) ->
                exists v, Plain.own (faqs st) !! bid = Some v /\ truthy v = true;
  wf_bookings :
    Forall (fun b =>
              known st (Booking.businessId b) = true /\
              Booking.status b = "confirmed" /\
              (Booking.staffId b = VNull \/ truthy (Booking.staffId b) = true) /\
              (Booking.notes b = VStr "" \/ truthy (Booking.notes b) = true))
           (bookings st);
  wf_leads :
    Forall (fun l => known st (Lead.businessId l) = true) (leads st);
  wf_staff :
    Forall (fun s =>
              known st (Staff.businessId s) = true /\
              truthy (Staff.role s) = true)
           (staff st);
  wf_overtime :
    Forall (fun o => Overtime.status o = "pending") (overtime st) }.

(** The create requests whose records no route reads back. *)
Definition unlisted (r : create_request) : bool :=
  match r with
  | PostLeads _ _ _ | PostStaffClockIn _ _ | PostStaffClockOut _ _
  | PostStaffOvertime _ _ _ => true
  | _ => false
  end.

(** ** More sample data *)

Module Demo.

Definition barber : business_body :=
  {| bb_name := VStr "Barber"; bb_industry := VStr "grooming";
     bb_timezone := VUndefined |}.

(** A second Jo, with the credentials of the first. *)
Definition second_jo : staff_body :=
  {| sb_name := VStr "Jo"; sb_nationalId := VStr "123"; sb_pin := VStr "9999";
     sb_role := VStr "manager" |}.

Definition walk_in : lead_body :=
  {| ld_name := VStr "Lee"; ld_contact := VStr "557"; ld_service := VStr "cut";
     ld_budget := VNum (of_Z 200); ld_source := VStr "street";
     ld_notes := VUndefined |}.

(** Requests that arrive after the sample states were set up. *)
Definition later : list request :=
  [ PostBusinessCreate "b3" barber;
    Create 10 (PostStaffCreate "s2" (Sample.tenant "b1") second_jo);
    Create 20 Sample.ann_books ].

Definition bootstrap : list request :=
  [ PostBusinessCreate "b1" barber ].

Definition jo_header : headers :=
  Sample.authorized ("Bearer " ++ Sample.jo_token).

(** The token with ["Bearer "] written after it. *)
Definition jo_header_reversed : headers :=
  Sample.authorized (Sample.jo_token ++ "Bearer " ++ "").

(** A booking of the first salon for somebody else than Jo. *)
Definition trim_for_bob : booking_body :=
  {| kb_clientName := VStr "Bob"; kb_contact := VStr "558";
     kb_service := VStr "trim"; kb_when := VStr "2025-01-12T11:00";
     kb_staffId := VStr "s9"; kb_notes := VStr "first visit" |}.

(** The two salons after a booking for Jo and one for somebody else. *)
Definition busy_salons : state :=
  run (jwt := ReferenceJwt.reference) None
    [ Create 20 Sample.ann_books;
      Create 30 (PostBookings "k3" (Sample.tenant "b1") trim_for_bob) ]
    Sample.two_salons.

(** A FAQ body that is an object with a field named after a member of
    [Object.prototype]. *)
Definition poisoned : faqs_body :=
  {| items := VObj [("constructor", VArr [VStr "leaked"])] |}.

(** A business is registered, then FAQs are posted under names nobody
    registered. *)
Definition faq_traffic : list request :=
  [ PostBusinessCreate "b1" barber;
    Create 10 (PostFaqs (Sample.tenant "__proto__") poisoned);
    Create 20 (PostFaqs (Sample.tenant "constructor") {| items := VStr "closed" |}) ].

End Demo.

(** * Verified properties *)

(** ** Strings *)

#[local] Arguments String.append !_ _ / : simpl nomatch.

Lemma strip_prefix_app p s : strip_prefix p (p ++ s) = Some s.
Proof.
  induction p as [|a p IHp]; simpl; [reflexivity|].
  rewrite Ascii.eqb_refl. exact IHp.
Qed.

Lemma strip_prefix_Some p s rest : strip_prefix p s = Some rest -> s = (p ++ rest)%string.
Proof.
  revert s. induction p as [|a p IHp]; intros s Hs; simpl in Hs.
  - simpl. congruence.
  - destruct s as [|b s]; [discriminate|].
    destruct (Ascii.eqb_spec a b) as [->|]; [|discriminate].
    simpl. f_equal. apply IHp. exact Hs.
Qed.

Lemma occurs_app c s t : occurs c (s ++ t) = occurs c s || occurs c t.
Proof.
  induction s as [|a s IHs]; simpl; [reflexivity|].
  rewrite IHs. apply orb_assoc.
Qed.

(** The first occurrence is the one at the front, when there is one. *)
Lemma replace_prefix pat rep s : replace pat rep (pat ++ s) = (rep ++ s)%string.
Proof.
  destruct pat as [|a pat]; [destruct s; reflexivity|].
  cbn [append replace]. change (String a (pat ++ s)) with (String a pat ++ s)%string.
  rewrite strip_prefix_app. reflexivity.
Qed.

(** A string that lacks a character of the pattern has no occurrence. *)
Lemma replace_absent pat rep c s :
  occurs c pat = true -> occurs c s = false -> replace pat rep s = s.
Proof.
  intros Hpat. induction s as [|a s IHs]; intros Hs.
  - destruct pat; [discriminate | reflexivity].
  - cbn [replace]. destruct (strip_prefix pat (String a s)) as [rest|] eqn:Hstrip.
    + apply strip_prefix_Some in Hstrip. rewrite Hstrip, occurs_app, Hpat in Hs.
      discriminate.
    + f_equal. apply IHs. simpl in Hs. apply orb_false_elim in Hs as [_ Hs].
      exact Hs.
Qed.

(** ** Values *)

Lemma strict_eq_string a b : strict_eq (VStr a) (VStr b) = true <-> a = b.
Proof. simpl. apply String.eqb_eq. Qed.

Lemma strict_eq_string_r v b : strict_eq v (VStr b) = true <-> v = VStr b.
Proof.
  destruct v; simpl; try (split; [discriminate | intros [=]]).
  rewrite String.eqb_eq. split; [congruence | intros [=]; assumption].
Qed.

(** ** Lists *)

(** [find] returns the first element, in list order, that satisfies the
    test. *)
Lemma find_first {A} (f : A -> bool) (l : list A) (x : A) :
  List.find f l = Some x <->
  exists l1 l2, l = l1 ++ x :: l2 /\ f x = true /\ Forall (fun y => f y = false) l1.
Proof.
  induction l as [|a l IHl]; simpl.
  - split; [discriminate|]. intros (l1 & l2 & Hl & _). destruct l1; discriminate.
  - destruct (f a) eqn:Hfa.
    + split.
      * intros [= <-]. exists [], l. auto.
      * intros (l1 & l2 & Hl & Hx & Hl1). destruct l1 as [|b l1].
        -- injection Hl as -> _. reflexivity.
        -- injection Hl as -> _. apply Forall_cons_1 in Hl1 as [Hb _]. congruence.
    + rewrite IHl. split.
      * intros (l1 & l2 & -> & Hx & Hl1). exists (a :: l1), l2. auto.
      * intros (l1 & l2 & Hl & Hx & Hl1). destruct l1 as [|b l1].
        -- injection Hl as -> _. congruence.
        -- injection Hl as -> ->. apply Forall_cons_1 in Hl1 as [_ Hl1]. eauto.
Qed.

Lemma find_None_iff {A} (f : A -> bool) (l : list A) :
  List.find f l = None <-> forall x, x ∈ l -> f x = false.
Proof.
  induction l as [|a l IHl]; simpl.
  - split; [intros _ x Hx; inversion Hx | reflexivity].
  - destruct (f a) eqn:Hfa.
    + split; [discriminate|]. intros Hall. rewrite Hall in Hfa; [discriminate|].
      left.
    + rewrite IHl. split.
      * intros Hall x Hx. inversion Hx; subst; auto.
      * intros Hall x Hx. apply Hall. right. exact Hx.
Qed.

(** ** Plain objects *)

Lemma index_key_not_proto i : String.eqb (Plain.index_key i) "__proto__" = false.
Proof. unfold Plain.index_key. destruct (Nat.to_uint i); reflexivity. Qed.

Lemma element_proto items : forall i, Plain.element "__proto__" i items = None.
Proof.
  induction items as [|v items IH]; intros i; simpl; [reflexivity|].
  rewrite index_key_not_proto. apply IH.
Qed.

(** A read after the definition of an own property. *)
Lemma get_define k k' v o :
  Plain.get k' (Plain.define k v o) =
  if decide (k = k') then Some (Data v) else Plain.get k' o.
Proof.
  unfold Plain.get, Plain.define. simpl. destruct (decide (k = k')) as [->|Hne].
  - rewrite lookup_insert_eq. reflexivity.
  - rewrite lookup_insert_ne by exact Hne. reflexivity.
Qed.

(** A write at a key other than [__proto__] defines an own property. *)
Lemma set_define k v o : k <> "__proto__" -> Plain.set k v o = Plain.define k v o.
Proof.
  intros Hk. unfold Plain.set.
  destruct (String.eqb_spec k "__proto__"); [contradiction | reflexivity].
Qed.

(** An array written at any key is what the next read of that key gives:
    as an own property, or as the prototype the getter of [__proto__]
    returns. *)
Lemma get_set_array k items o :
  Plain.get k (Plain.set k (VArr items) o) = Some (Data (VArr items)).
Proof.
  unfold Plain.set.
  destruct (String.eqb k "__proto__"
            && negb (bool_decide (is_Some (Plain.own o !! k)))
            && Plain.reaches_accessor (Plain.proto o)) eqn:Hset.
  - apply andb_prop in Hset as [Hset _]. apply andb_prop in Hset as [Hk Hown].
    apply String.eqb_eq in Hk. subst k.
    apply negb_true_iff, bool_decide_eq_false in Hown.
    unfold Plain.get. simpl.
    destruct (Plain.own o !! "__proto__") as [x|]; [exfalso; eauto|].
    rewrite element_proto. reflexivity.
  - rewrite get_define. destruct (decide (k = k)); [reflexivity | contradiction].
Qed.

(** ** The gates *)

Lemma requireBiz_Ok st h bid :
  requireBiz st h = Ok bid ->
  x_business_id h = Some bid /\ bid <> "" /\ known st bid = true.
Proof.
  unfold requireBiz. destruct (x_business_id h) as [b|]; [|discriminate].
  destruct (String.eqb_spec b ""); [discriminate|].
  destruct (known st b) eqn:Hb; [|discriminate].
  intros [= <-]. auto.
Qed.

Lemma requireBiz_known st h bid :
  x_business_id h = Some bid -> bid <> "" -> known st bid = true ->
  requireBiz st h = Ok bid.
Proof.
  intros Hh Hne Hb. unfold requireBiz. rewrite Hh, Hb.
  destruct (String.eqb_spec bid ""); [contradiction | reflexivity].
Qed.

Lemma requireBiz_businesses st st' h :
  businesses st' = businesses st -> requireBiz st' h = requireBiz st h.
Proof. intros Hb. unfold requireBiz, known. rewrite Hb. reflexivity. Qed.

Lemma strict_eq_string_l a v : strict_eq (VStr a) v = true <-> v = VStr a.
Proof.
  destruct v; simpl; try (split; [discriminate | intros [=]]).
  rewrite String.eqb_eq. split; [congruence | intros [=]; congruence].
Qed.

(** ** Tenant isolation *)

Section Isolation.

Context {jwt : Jwt}.
Variable env : option string.

Ltac open_gates :=
  unfold post_bookings, post_leads, post_staff_create, post_staff_clock_in,
    post_staff_clock_out, clock_event, post_staff_overtime, post_faqs,
    get_bookings, get_staff_agenda, get_faqs, tenant_of_gate in *.

Ltac case_gate :=
  match goal with
  | |- context [requireBiz ?st ?h] => destruct (requireBiz st h) as [?bid|]
  | |- context [requireStaff ?e ?c ?h] => destruct (requireStaff e c h) as [?user|]
  end.

(** No create request touches the tenant registry. *)
Lemma businesses_run_create clock r st :
  businesses (run_create env clock r st) = businesses st.
Proof.
  destruct r; simpl; open_gates;
    case_gate; reflexivity.
Qed.

(** A create request adds at most one booking, and only under its tenant. *)
Lemma bookings_run_create clock r st A :
  create_tenant env clock r st = Some A ->
  bookings (run_create env clock r st) =
  bookings st ++ match created_booking r st with Some e => [e] | None => [] end /\
  (forall e, created_booking r st = Some e -> VStr (Booking.businessId e) = A).
Proof.
  destruct r; simpl; open_gates;
    case_gate; simpl; intros [=]; subst;
    (split; [rewrite ?app_nil_r; reflexivity|]); intros e [=]; subst; reflexivity.
Qed.

(** A create request of a tenant other than [__proto__] leaves what [faqs]
    holds for the other tenants alone. *)
Lemma faqs_run_create clock r st A B :
  create_tenant env clock r st = Some (VStr A) -> A <> B -> A <> "__proto__" ->
  faqs (run_create env clock r st) !! B = faqs st !! B.
Proof.
  destruct r; simpl; open_gates;
    case_gate; simpl; intros [=] Hne Hproto; subst; try reflexivity.
  unfold lookup, plain_lookup. rewrite (set_define _ _ _ Hproto), get_define.
  destruct (decide (A = B)); [contradiction | reflexivity].
Qed.

(** A filter that only keeps bookings of [B] does not see what a request of
    another tenant stored. *)
Lemma filter_run_create clock r st A B (f : Booking.t -> bool) :
  create_tenant env clock r st = Some (VStr A) -> A <> B ->
  (forall b, f b = true -> Booking.businessId b = B) ->
  List.filter f (bookings (run_create env clock r st)) = List.filter f (bookings st).
Proof.
  intros Hr Hne Hf. destruct (bookings_run_create clock r st _ Hr) as [-> HA].
  rewrite List.filter_app. destruct (created_booking r st) as [e|]; simpl.
  - destruct (f e) eqn:Hfe; [|apply app_nil_r].
    exfalso. apply Hne. specialize (HA e eq_refl). injection HA as <-.
    apply Hf. exact Hfe.
  - apply app_nil_r.
Qed.

Lemma on_agenda_tenant user b :
  on_agenda user b = true -> Session.businessId user = VStr (Booking.businessId b).
Proof.
  unfold on_agenda. rewrite !andb_true_iff. intros [[Hb _] _].
  apply strict_eq_string_l. exact Hb.
Qed.


(** One step: a list request of [B] answers the same before and after a
    create request of another tenant. *)
Lemma run_list_run_create clock clock' (A B : string) (r : create_request)
    (q : list_request) (st : state) :
  A <> B -> A <> "__proto__" ->
  create_tenant env clock r st = Some (VStr A) ->
  list_tenant env clock' q st = Some (VStr B) ->
  list_tenant env clock' q (run_create env clock r st) = Some (VStr B) /\
  run_list env clock' q (run_create env clock r st) = run_list env clock' q st.
Proof.
  intros Hne Hproto Hr Hq.
  assert (Hgate : forall h,
             requireBiz (run_create env clock r st) h = requireBiz st h)
    by (intros h; apply requireBiz_businesses, businesses_run_create).
  split.
  - destruct q; simpl in *; unfold tenant_of_gate in *; rewrite ?Hgate; exact Hq.
  - destruct q; simpl in *; open_gates; rewrite ?Hgate.
    + destruct (requireBiz st h) as [bid|]; simpl in *; [|reflexivity].
      injection Hq as ->. f_equal. f_equal.
      apply (filter_run_create clock r st A B); [assumption..|].
      intros b Hb. apply String.eqb_eq. exact Hb.
    + destruct (requireStaff env clock' h) as [user|]; simpl in *; [|reflexivity].
      injection Hq as Hq. f_equal. f_equal.
      apply (filter_run_create clock r st A B); [assumption..|].
      intros b Hb. apply on_agenda_tenant in Hb. congruence.
    + destruct (requireBiz st h) as [bid|]; simpl in *; [|reflexivity].
      injection Hq as ->.
      rewrite (faqs_run_create clock r st A B Hr Hne Hproto). reflexivity.
Qed.


(** The same over any sequence of create requests, each of them resolved,
    in the state it runs in, to a tenant other than [B] and [__proto__]. *)
Lemma run_list_run_creates clock' (B : string) (q : list_request) rs : forall st,
  others_only env B rs st ->
  list_tenant env clock' q st = Some (VStr B) ->
  run_list env clock' q (run_creates env rs st) = run_list env clock' q st.
Proof.
  induction rs as [|[clock r] rs IH]; intros st Hrs Hq; [reflexivity|].
  destruct Hrs as [(A & Hr & Hne & Hproto) Hrs]. cbn [run_creates].
  destruct (run_list_run_create clock clock' A B r q st Hne Hproto Hr Hq)
    as [Hq' Hsame].
  rewrite (IH _ Hrs Hq'). exact Hsame.
Qed.

End Isolation.


(** ** Login *)

Section Login.

Context {jwt : Jwt}.
Variable env : option string.

Lemma credentials_match_spec bid body x :
  credentials_match bid body x = true <->
  Staff.businessId x = bid /\
  strict_eq (Staff.name x) (lb_name body) = true /\
  strict_eq (Staff.nationalId x) (lb_nationalId body) = true /\
  strict_eq (Staff.pin x) (lb_pin body) = true.
Proof.
  unfold credentials_match. rewrite !andb_true_iff, String.eqb_eq. tauto.
Qed.

Lemma post_staff_login_find clock st h bid body :
  requireBiz st h = Ok bid ->
  post_staff_login env clock h body st =
  match List.find (credentials_match bid body) (staff st) with
  | None => Unauthorized "Invalid credentials"
  | Some s =>
      Ok {| token := jwt_sign {| Claims.staffId := VStr (Staff.id s);
                                 Claims.businessId := VStr bid;
                                 Claims.role := Staff.role s |}
                              (JWT_SECRET env) expiresIn clock;
            staff_id := Staff.id s; staff_name := Staff.name s;
            staff_role := Staff.role s |}
  end.
Proof. intros Hgate. unfold post_staff_login. rewrite Hgate. reflexivity. Qed.

(** C2: behind the tenant gate, login succeeds exactly when some staff
    record of the tenant has a name, a national id and a pin strictly equal
    ([===]: equal strings, no coercion) to those of the request; with no
    such record the answer is 401; a success is built from the first such
    record in insertion order. *)
Theorem login_correct clock st h bid body :
  requireBiz st h = Ok bid ->
  let matching s :=
    Staff.businessId s = bid /\
    strict_eq (Staff.name s) (lb_name body) = true /\
    strict_eq (Staff.nationalId s) (lb_nationalId body) = true /\
    strict_eq (Staff.pin s) (lb_pin body) = true in
  ((exists resp, post_staff_login env clock h body st = Ok resp) <->
   (exists s, s ∈ staff st /\ matching s)) /\
  ((~ exists s, s ∈ staff st /\ matching s) ->
   post_staff_login env clock h body st = Err 401 "Invalid credentials") /\
  (forall resp, post_staff_login env clock h body st = Ok resp ->
     exists l1 s l2,
       staff st = l1 ++ s :: l2 /\ matching s /\
       Forall (fun x => ~ matching x) l1 /\
       resp = {| token := jwt_sign {| Claims.staffId := VStr (Staff.id s);
                                      Claims.businessId := VStr bid;
                                      Claims.role := Staff.role s |}
                                   (JWT_SECRET env) expiresIn clock;
                 staff_id := Staff.id s; staff_name := Staff.name s;
                 staff_role := Staff.role s |}) /\
  (forall n i p,
     body = {| lb_name := VStr n; lb_nationalId := VStr i; lb_pin := VStr p |} ->
     ((exists resp, post_staff_login env clock h body st = Ok resp) <->
      (exists s, s ∈ staff st /\ Staff.businessId s = bid /\
                 Staff.name s = VStr n /\ Staff.nationalId s = VStr i /\
                 Staff.pin s = VStr p))).
Proof.
  intros Hgate matching.
  rewrite (post_staff_login_find clock st h bid body Hgate).
  assert (Hiff : (exists resp,
                    match List.find (credentials_match bid body) (staff st) with
                    | None => Unauthorized "Invalid credentials"
                    | Some s =>
                        Ok {| token := jwt_sign {| Claims.staffId := VStr (Staff.id s);
                                                   Claims.businessId := VStr bid;
                                                   Claims.role := Staff.role s |}
                                                (JWT_SECRET env) expiresIn clock;
                              staff_id := Staff.id s; staff_name := Staff.name s;
                              staff_role := Staff.role s |}
                    end = Ok resp) <->
                 (exists s, s ∈ staff st /\ matching s)).
  { destruct (List.find (credentials_match bid body) (staff st)) as [s|] eqn:Hfind.
    - split; [intros _ | eauto].
      apply find_first in Hfind as (l1 & l2 & Hl & Hs & _).
      exists s. split; [rewrite Hl; set_solver|].
      apply credentials_match_spec. exact Hs.
    - split; [intros [resp [=]]|]. intros (s & Hin & Hs).
      apply credentials_match_spec in Hs.
      rewrite (proj1 (find_None_iff _ _) Hfind s Hin) in Hs. discriminate. }
  split; [exact Hiff|]. split; [|split].
  - intros Hnone.
    destruct (List.find (credentials_match bid body) (staff st)) as [s|];
      [|reflexivity].
    exfalso. apply Hnone, Hiff. eauto.
  - intros resp Hresp.
    destruct (List.find (credentials_match bid body) (staff st)) as [s|] eqn:Hfind;
      [|discriminate].
    apply find_first in Hfind as (l1 & l2 & Hl & Hs & Hl1).
    exists l1, s, l2. split; [exact Hl|]. split; [apply credentials_match_spec, Hs|].
    split; [|congruence].
    eapply Forall_impl; [|exact Hl1]. intros x Hx Hm.
    apply credentials_match_spec in Hm. congruence.
  - intros n i p ->. rewrite Hiff. unfold matching. simpl.
    split; intros (s & Hin & Hb & Hn & Hi & Hp); exists s;
      (split; [exact Hin|]); (split; [exact Hb|]).
    + apply strict_eq_string_r in Hn, Hi, Hp. auto.
    + rewrite Hn, Hi, Hp. simpl. rewrite !String.eqb_refl. auto.
Qed.

End Login.

Lemma login_correct_witness :
  requireBiz Sample.salon_with_jo (Sample.tenant "b1") = Ok "b1" /\
  ((exists resp,
      post_staff_login (jwt := ReferenceJwt.reference) None 0 (Sample.tenant "b1")
        Sample.jo_login Sample.salon_with_jo = Ok resp) <->
   (exists s, s ∈ staff Sample.salon_with_jo /\
      Staff.businessId s = "b1" /\
      strict_eq (Staff.name s) (lb_name Sample.jo_login) = true /\
      strict_eq (Staff.nationalId s) (lb_nationalId Sample.jo_login) = true /\
      strict_eq (Staff.pin s) (lb_pin Sample.jo_login) = true)).
Proof.
  split; [vm_compute; reflexivity|].
  apply (login_correct (jwt := ReferenceJwt.reference) None 0 Sample.salon_with_jo
           (Sample.tenant "b1") "b1" Sample.jo_login).
  vm_compute. reflexivity.
Defined.

(** ** Sessions *)

Section Sessions.

Context {jwt : Jwt}.
Variable env : option string.

(** What the staff gate does with a header that starts with ["Bearer "]:
    that one prefix is removed and the rest is verified as it is. *)
Lemma requireStaff_bearer clock h s :
  authorization h = Some ("Bearer " ++ s)%string ->
  requireStaff env clock h =
  match jwt_verify s (JWT_SECRET env) clock with
  | Some user => Ok user
  | None => Unauthorized "Invalid token"
  end.
Proof.
  intros Hauth. unfold requireStaff. rewrite Hauth.
  rewrite (replace_prefix "Bearer " "" s). reflexivity.
Qed.

(** What it does with a header that is a bare signed token. *)
Lemma requireStaff_raw clock h p secret ttl issued :
  authorization h = Some (jwt_sign p secret ttl issued) ->
  requireStaff env clock h =
  match jwt_verify (jwt_sign p secret ttl issued) (JWT_SECRET env) clock with
  | Some user => Ok user
  | None => Unauthorized "Invalid token"
  end.
Proof.
  intros Hauth. unfold requireStaff. rewrite Hauth.
  destruct (jwt_sign_compact p secret ttl issued) as [Hne Hsp].
  destruct (String.eqb_spec (jwt_sign p secret ttl issued) "") as [Hnil|_];
    [contradiction|].
  rewrite (replace_absent "Bearer " "" " " _ eq_refl Hsp). reflexivity.
Qed.

(** C3: the token a successful login returns, sent back as a bearer
    credential, passes the staff gate, at once and at any time before the
    eight hours are over, and the session the gate attaches carries the id
    and role of the staff record that logged in and the business id of the
    login request; a token signed with any other secret is answered 401. *)
Theorem session_roundtrip clock st h body resp :
  post_staff_login env clock h body st = Ok resp ->
  exists bid s,
    requireBiz st h = Ok bid /\ s ∈ staff st /\
    Staff.businessId s = bid /\ staff_id resp = Staff.id s /\
    let user := {| Session.staffId := VStr (Staff.id s);
                   Session.businessId := VStr bid;
                   Session.role := Staff.role s;
                   Session.iat := clock; Session.exp := clock + expiresIn |} in
    (forall h',
       authorization h' = Some ("Bearer " ++ token resp)%string ->
       requireStaff env clock h' = Ok user) /\
    (forall clock' h',
       clock' < clock + expiresIn ->
       authorization h' = Some ("Bearer " ++ token resp)%string ->
       requireStaff env clock' h' = Ok user) /\
    (forall clock' p secret ttl issued h',
       secret <> JWT_SECRET env ->
       authorization h' = Some ("Bearer " ++ jwt_sign p secret ttl issued)%string ->
       requireStaff env clock' h' = Err 401 "Invalid token").
Proof.
  intros Hlogin.
  destruct (requireBiz st h) as [bid|] eqn:Hgate;
    [|unfold post_staff_login in Hlogin; rewrite Hgate in Hlogin; discriminate].
  rewrite (post_staff_login_find env clock st h bid body Hgate) in Hlogin.
  destruct (List.find (credentials_match bid body) (staff st)) as [s|] eqn:Hfind;
    [|discriminate].
  injection Hlogin as <-. cbn [token staff_id].
  apply find_first in Hfind as (l1 & l2 & Hl & Hs & _).
  apply credentials_match_spec in Hs as [Hb _].
  exists bid, s. split; [reflexivity|]. split; [rewrite Hl; set_solver|].
  split; [exact Hb|]. split; [reflexivity|].
  assert (Hlater : forall clock' h',
             clock' < clock + expiresIn ->
             authorization h' =
               Some ("Bearer " ++ jwt_sign {| Claims.staffId := VStr (Staff.id s);
                                              Claims.businessId := VStr bid;
                                              Claims.role := Staff.role s |}
                                           (JWT_SECRET env) expiresIn clock)%string ->
             requireStaff env clock' h' =
             Ok {| Session.staffId := VStr (Staff.id s);
                   Session.businessId := VStr bid;
                   Session.role := Staff.role s;
                   Session.iat := clock; Session.exp := clock + expiresIn |}).
  { intros clock' h' Hfresh Hauth.
    rewrite (requireStaff_bearer clock' h' _ Hauth).
    rewrite (jwt_verify_sign _ _ _ _ _ Hfresh). reflexivity. }
  split; [|split].
  - intros h' Hauth. apply Hlater; [unfold expiresIn; lia | exact Hauth].
  - exact Hlater.
  - intros clock' p secret ttl issued h' Hne Hauth.
    rewrite (requireStaff_bearer clock' h' _ Hauth).
    rewrite (jwt_verify_secret _ _ _ _ _ _ Hne). reflexivity.
Qed.

(** C10: a token signed with the server's secret passes the staff gate
    before it expires whether the header is ["Bearer " ++ token] or the bare
    token; and of a header that starts with ["Bearer "] only that first
    occurrence is removed before verification. *)
Theorem bearer_prefix_optional clock clock' p ttl h_raw h_bearer :
  clock' < clock + ttl ->
  let tok := jwt_sign p (JWT_SECRET env) ttl clock in
  let user := {| Session.staffId := Claims.staffId p;
                 Session.businessId := Claims.businessId p;
                 Session.role := Claims.role p;
                 Session.iat := clock; Session.exp := clock + ttl |} in
  authorization h_raw = Some tok ->
  authorization h_bearer = Some ("Bearer " ++ tok)%string ->
  requireStaff env clock' h_raw = Ok user /\
  requireStaff env clock' h_bearer = Ok user /\
  (forall s h,
     authorization h = Some ("Bearer " ++ s)%string ->
     requireStaff env clock' h =
     match jwt_verify s (JWT_SECRET env) clock' with
     | Some u => Ok u
     | None => Err 401 "Invalid token"
     end) /\
  (forall s, replace "Bearer " "" ("Bearer " ++ ("Bearer " ++ s)) = ("Bearer " ++ s)%string).
Proof.
  intros Hfresh tok user Hraw Hbearer. split; [|split; [|split]].
  - rewrite (requireStaff_raw clock' h_raw _ _ _ _ Hraw).
    rewrite (jwt_verify_sign _ _ _ _ _ Hfresh). reflexivity.
  - rewrite (requireStaff_bearer clock' h_bearer _ Hbearer). unfold tok.
    rewrite (jwt_verify_sign _ _ _ _ _ Hfresh). reflexivity.
  - intros s h Hauth. apply requireStaff_bearer. exact Hauth.
  - intros s. apply (replace_prefix "Bearer " "").
Qed.

End Sessions.

Lemma session_roundtrip_witness :
  post_staff_login (jwt := ReferenceJwt.reference) None 0 (Sample.tenant "b1")
    Sample.jo_login Sample.salon_with_jo = Ok Sample.jo_logged_in /\
  forall h',
    authorization h' = Some ("Bearer " ++ Sample.jo_token)%string ->
    requireStaff (jwt := ReferenceJwt.reference) None 0 h' = Ok Sample.jo_session.
Proof.
  assert (Hlogin : post_staff_login (jwt := ReferenceJwt.reference) None 0
                     (Sample.tenant "b1") Sample.jo_login Sample.salon_with_jo
                   = Ok Sample.jo_logged_in) by (vm_compute; reflexivity).
  split; [exact Hlogin|].
  destruct (session_roundtrip (jwt := ReferenceJwt.reference) None 0
              Sample.salon_with_jo (Sample.tenant "b1") Sample.jo_login
              Sample.jo_logged_in Hlogin)
    as (bid & s & Hgate & Hin & _ & Hid & Hnow & _).
  assert (Hbid : bid = "b1") by (vm_compute in Hgate; congruence).
  assert (Hs : s = Sample.jo).
  { apply list_elem_of_In in Hin. destruct Hin as [<-|[]]. reflexivity. }
  subst bid s. intros h' Hauth.
  change (token Sample.jo_logged_in) with Sample.jo_token in Hnow.
  rewrite (Hnow h' Hauth). reflexivity.
Defined.

Lemma bearer_prefix_optional_witness :
  3600 < 0 + expiresIn /\
  requireStaff (jwt := ReferenceJwt.reference) None 3600
    (Sample.authorized Sample.jo_token) = Ok Sample.jo_session.
Proof.
  split; [reflexivity|].
  destruct (bearer_prefix_optional (jwt := ReferenceJwt.reference) None 0 3600
              Sample.jo_claims expiresIn (Sample.authorized Sample.jo_token)
              (Sample.authorized ("Bearer " ++ Sample.jo_token)))
    as [Hraw _];
    [reflexivity | vm_compute; reflexivity | vm_compute; reflexivity |].
  rewrite Hraw. vm_compute. reflexivity.
Defined.

(** ** FAQs *)

Lemma post_faqs_stores st h bid v :
  requireBiz st h = Ok bid ->
  post_faqs h {| items := v |} st =
  Ok (true, with_faqs st (Plain.set bid (or_else v (VArr [])) (faqs st))).
Proof. intros Hgate. unfold post_faqs. rewrite Hgate. reflexivity. Qed.

Lemma get_faqs_reads st h bid o x :
  requireBiz st h = Ok bid ->
  o !! bid = Some x -> Plain.truthy x = true ->
  get_faqs h (with_faqs st o) = Ok x.
Proof.
  intros Hgate Hx Ht. unfold get_faqs.
  rewrite (requireBiz_businesses st (with_faqs st o) h eq_refl), Hgate. simpl.
  rewrite Hx, Ht. reflexivity.
Qed.

(** C8: behind the tenant gate, posting a list of FAQ items answers
    [{ ok: true }] and makes the tenant's next [GET /faqs] return exactly the
    posted list, whatever was stored before: an entry that is not in the
    posted list is not in the answer. *)
Theorem faqs_replace st h bid (l : list value) :
  requireBiz st h = Ok bid ->
  exists st',
    post_faqs h {| items := VArr l |} st = Ok (true, st') /\
    get_faqs h st' = Ok (Data (VArr l)) /\
    (forall x l', get_faqs h st' = Ok (Data (VArr l')) -> x ∉ l -> x ∉ l').
Proof.
  intros Hgate. eexists. split; [apply (post_faqs_stores st h bid _ Hgate)|].
  assert (Hget : get_faqs h (with_faqs st (Plain.set bid (VArr l) (faqs st)))
                 = Ok (Data (VArr l)))
    by (apply (get_faqs_reads st h bid _ _ Hgate (get_set_array bid l (faqs st)));
        reflexivity).
  split; [exact Hget|].
  intros x l' Hl'.
  change (get_faqs h (with_faqs st (Plain.set bid (VArr l) (faqs st)))
          = Ok (Data (VArr l'))) in Hl'.
  rewrite Hget in Hl'. injection Hl' as ->. auto.
Qed.

Lemma faqs_replace_witness :
  requireBiz Sample.salon (Sample.tenant "b1") = Ok "b1" /\
  exists st',
    post_faqs (Sample.tenant "b1") {| items := VArr [VStr "only"] |} Sample.salon
    = Ok (true, st') /\
    get_faqs (Sample.tenant "b1") st' = Ok (Data (VArr [VStr "only"])) /\
    (forall x l',
       get_faqs (Sample.tenant "b1") st' = Ok (Data (VArr l')) ->
       x ∉ [VStr "only"] -> x ∉ l').
Proof.
  split; [vm_compute; reflexivity|].
  apply (faqs_replace Sample.salon (Sample.tenant "b1") "b1" [VStr "only"]).
  vm_compute. reflexivity.
Defined.

(** C9: behind the tenant gate, a [POST /faqs] whose body has no [items]
    field, or a falsy one, answers [{ ok: true }] all the same and leaves the
    tenant with the empty list, whatever it had. *)
Theorem faqs_cleared_by_missing_items st h bid v :
  requireBiz st h = Ok bid ->
  truthy v = false ->
  exists st',
    post_faqs h {| items := v |} st = Ok (true, st') /\
    faqs st' !! bid = Some (Data (VArr [])) /\
    get_faqs h st' = Ok (Data (VArr [])).
Proof.
  intros Hgate Hv. eexists. split; [apply (post_faqs_stores st h bid _ Hgate)|].
  assert (Hempty : or_else v (VArr []) = VArr [])
    by (unfold or_else; rewrite Hv; reflexivity).
  rewrite Hempty. split.
  - apply (get_set_array bid [] (faqs st)).
  - apply (get_faqs_reads st h bid _ _ Hgate (get_set_array bid [] (faqs st))).
    reflexivity.
Qed.

Lemma faqs_cleared_by_missing_items_witness :
  requireBiz Sample.salon (Sample.tenant "b1") = Ok "b1" /\
  truthy VUndefined = false /\
  faqs Sample.salon !! "b1" = Some (Data default_faqs) /\
  exists st',
    post_faqs (Sample.tenant "b1") {| items := VUndefined |} Sample.salon
    = Ok (true, st') /\
    faqs st' !! "b1" = Some (Data (VArr [])) /\
    get_faqs (Sample.tenant "b1") st' = Ok (Data (VArr [])).
Proof.
  split; [vm_compute; reflexivity|]. split; [reflexivity|].
  split; [vm_compute; reflexivity|].
  apply (faqs_cleared_by_missing_items Sample.salon (Sample.tenant "b1") "b1" VUndefined);
    [vm_compute; reflexivity | reflexivity].
Defined.

(** ** Forecast *)

Lemma lift_eq : lift = lift_value.
Proof. vm_compute. reflexivity. Qed.

Lemma lift_value_near_117 :
  (117 # 100 < exact false 5269211564023481 (-52))%Q /\
  (exact false 5269211564023481 (-52) <= (117 # 100) + Qpower 2 (-52))%Q.
Proof. split; vm_compute; [reflexivity | discriminate]. Qed.

(** C4: [forecast(10000, 1500)] projects [round(10000 × 1.17) = 11700] and
    estimates an ROI of [((11700 − 10000) − 1500) / 1500], which is 0.13 at
    two decimals. *)
Theorem forecast_literal_value :
  projectedWeeklyRevenue (forecast literal_body) = of_Z 11700 /\
  estimatedROI (forecast literal_body) = literal 13 100 /\
  Math_round (mul (of_Z 10000) (literal 117 100)) = of_Z 11700 /\
  toFixed (div (sub (sub (of_Z 11700) (of_Z 10000)) (of_Z 1500)) (of_Z 1500)) 2
  = StrFixed false 13 2.
Proof. vm_compute. repeat split; reflexivity. Qed.

(** C5, as the specification words it, fails at a baseline of 10000: the
    handler projects 11700, the compounded lifts would give 11760. *)
Lemma forecast_projected_not_compound :
  projectedWeeklyRevenue (forecast literal_body) = of_Z 11700 /\
  projected_compound (of_Z 10000) = of_Z 11760 /\
  projectedWeeklyRevenue (forecast literal_body) <> projected_compound (of_Z 10000).
Proof. split; [|split]; vm_compute; [reflexivity | reflexivity | discriminate]. Qed.

(** C5, amended: for every baseline the projection is the baseline times the
    sum of the lifts, [baseline × (1 + 0.12 + 0.05)], rounded to the nearest
    integer; the factor is the double 1.1700000000000002. *)
Theorem forecast_projected_additive (b : number) (s : option number) :
  projectedWeeklyRevenue
    (forecast {| fb_baselineWeeklyRevenue := Some b; fb_marketingSpend := s |})
  = Math_round (mul b lift_value) /\
  (117 # 100 < exact false 5269211564023481 (-52)
   <= (117 # 100) + Qpower 2 (-52))%Q.
Proof.
  split; [|exact lift_value_near_117].
  unfold forecast, projected. simpl. rewrite lift_eq. reflexivity.
Qed.

Lemma whole_numbers_agree_sound count : forall n k,
  whole_numbers_agree count n = true -> n <= k < n + Z.of_nat count ->
  projected (of_Z k) = of_Z ((117 * k + 50) / 100).
Proof.
  induction count as [|count IH]; intros n k Hc Hk; [lia|].
  cbn [whole_numbers_agree] in Hc.
  destruct (Z.eq_dec k n) as [->|Hne].
  - destruct (projected (of_Z n)) as [[]| | |[] m e]; try discriminate;
      destruct (of_Z ((117 * n + 50) / 100)) as [[]| | |[] m' e'];
      try discriminate; [reflexivity|].
    apply andb_prop in Hc as [Hc _]. apply andb_prop in Hc as [Hm He].
    apply Pos.eqb_eq in Hm. apply Z.eqb_eq in He. congruence.
  - apply (IH (n + 1)); [|lia].
    destruct (projected (of_Z n)) as [[]| | |[] m e]; try discriminate;
      destruct (of_Z ((117 * n + 50) / 100)) as [[]| | |[] m' e'];
      try discriminate; [assumption|].
    apply andb_prop in Hc as [_ Hc]. assumption.
Qed.

(** X20: on whole-number baselines up to 10000 the rounding of the doubles
    does not show: the projection is the integer nearest to [117 n / 100], halves
    up. *)
Lemma projected_whole_numbers (n : Z) :
  0 <= n <= 10000 -> projected (of_Z n) = of_Z ((117 * n + 50) / 100).
Proof.
  intros Hn. apply (whole_numbers_agree_sound (Z.to_nat 10001) 0); [|lia].
  vm_compute. reflexivity.
Qed.

(** C6, as stated, fails for a baseline of 10000 and a spend of 0: the
    handler answers 200 and the ROI it reports is the number Infinity; for a
    baseline of 0 it is NaN. *)
Lemma forecast_zero_spend_unguarded :
  (exists r,
     post_insights_forecast (Sample.tenant "b1") Sample.ten_thousand_no_spend
       Sample.salon = Ok r /\
     estimatedROI r = Infinity) /\
  estimatedROI
    (forecast {| fb_baselineWeeklyRevenue := Some (of_Z 0);
                 fb_marketingSpend := Some (of_Z 0) |}) = NaN.
Proof.
  split; [|vm_compute; reflexivity].
  eexists. split; [vm_compute; reflexivity|]. vm_compute. reflexivity.
Qed.

Lemma requireBiz_forecast st h bid body :
  requireBiz st h = Ok bid -> post_insights_forecast h body st = Ok (forecast body).
Proof. intros Hgate. unfold post_insights_forecast. rewrite Hgate. reflexivity. Qed.

Lemma div_by_zero (x : number) :
  div x (of_Z 0) =
  match x with
  | S754_infinity s | S754_finite s _ _ => S754_infinity s
  | S754_zero _ | S754_nan => NaN
  end.
Proof. destruct x as [s|s| |s m e]; simpl; rewrite ?xorb_false_r; reflexivity. Qed.

(** C6, amended: with a spend of 0 the handler still answers 200 and puts
    no sentinel in place of the quotient: the ROI is Infinity with the sign
    of the net uplift [projected − baseline − 0], or NaN when that uplift is
    zero or NaN; it is never a finite number, and [res.json] writes it as
    [null]. *)
Theorem forecast_zero_spend (st : state) (h : headers) (bid : string) (b : number) :
  requireBiz st h = Ok bid ->
  let body := {| fb_baselineWeeklyRevenue := Some b;
                 fb_marketingSpend := Some (of_Z 0) |} in
  post_insights_forecast h body st = Ok (forecast body) /\
  estimatedROI (forecast body) =
    match sub (sub (projected b) b) (of_Z 0) with
    | S754_infinity s | S754_finite s _ _ => S754_infinity s
    | S754_zero _ | S754_nan => NaN
    end /\
  is_finite (estimatedROI (forecast body)) = false /\
  JSON_stringify (estimatedROI (forecast body)) = JsonNull.
Proof.
  intros Hgate body. split; [exact (requireBiz_forecast _ _ _ _ Hgate)|].
  assert (Hroi : estimatedROI (forecast body) =
                 Number (toFixed (div (sub (sub (projected b) b) (of_Z 0)) (of_Z 0)) 2))
    by reflexivity.
  rewrite Hroi, div_by_zero. unfold JSON_stringify.
  destruct (sub (sub (projected b) b) (of_Z 0)) as [s|s| |s m e];
    repeat split; reflexivity.
Qed.

Lemma forecast_zero_spend_witness :
  requireBiz Sample.salon (Sample.tenant "b1") = Ok "b1" /\
  JSON_stringify (estimatedROI (forecast Sample.ten_thousand_no_spend)) = JsonNull.
Proof.
  split; [vm_compute; reflexivity|].
  apply (forecast_zero_spend Sample.salon (Sample.tenant "b1") "b1" (of_Z 10000)).
  vm_compute. reflexivity.
Defined.

(** C7: with both fields omitted the forecast is the one of the literal call
    [forecast(10000, 1500)], field by field, and each field is substituted
    on its own. *)
Theorem forecast_default_substitution :
  forecast empty_body = forecast literal_body /\
  (forall h st,
     post_insights_forecast h empty_body st = post_insights_forecast h literal_body st) /\
  baselineWeeklyRevenue (forecast empty_body) = of_Z 10000 /\
  marketingSpend (forecast empty_body) = of_Z 1500 /\
  (forall s,
     forecast {| fb_baselineWeeklyRevenue := None; fb_marketingSpend := s |} =
     forecast {| fb_baselineWeeklyRevenue := Some (of_Z 10000); fb_marketingSpend := s |}) /\
  (forall b,
     forecast {| fb_baselineWeeklyRevenue := b; fb_marketingSpend := None |} =
     forecast {| fb_baselineWeeklyRevenue := b; fb_marketingSpend := Some (of_Z 1500) |}).
Proof. repeat split; reflexivity. Qed.

(** * Further properties of the handlers *)

Ltac unfold_handlers :=
  unfold post_bookings, post_leads, post_staff_create, post_staff_clock_in,
    post_staff_clock_out, clock_event, post_staff_overtime, post_faqs,
    get_bookings, get_staff_agenda, get_faqs, tenant_of_gate in *.

Ltac split_gate :=
  match goal with
  | |- context [requireBiz ?st ?h] =>
      destruct (requireBiz st h) as [?bid|] eqn:?Hgate
  | |- context [requireStaff ?e ?c ?h] =>
      destruct (requireStaff e c h) as [?user|] eqn:?Hgate
  end.

(** ** Nothing is ever removed *)

Lemma extends_refl st : extends st st.
Proof. split; auto. Qed.

Lemma extends_trans st1 st2 st3 : extends st1 st2 -> extends st2 st3 -> extends st1 st3.
Proof.
  intros [Hb1 ? ? ? ? ?] [Hb2 ? ? ? ? ?].
  split; [auto | etrans; eassumption ..].
Qed.

Lemma prefix_snoc {A} (l : list A) x : l `prefix_of` l ++ [x].
Proof. exists [x]. reflexivity. Qed.

Section Monotone.

Context {jwt : Jwt}.
Variable env : option string.

Lemma in_names_spec k names : Plain.in_names k names = true <-> k ∈ names.
Proof.
  unfold Plain.in_names. rewrite existsb_exists, list_elem_of_In. split.
  - intros (x & Hin & Heq). apply String.eqb_eq in Heq. subst x. exact Hin.
  - intros Hin. exists k. split; [exact Hin | apply String.eqb_refl].
Qed.

(** The ids the tenant gate knows: the registered ones and the names every
    object inherits. *)
Lemma known_spec st bid :
  known st bid = true <->
  is_Some (businesses st !! bid) \/ bid ∈ Plain.object_prototype_names.
Proof.
  unfold known. destruct (businesses st !! bid) as [b|].
  - split; eauto.
  - rewrite in_names_spec. split; [auto|]. intros [[x [=]]|Hin]. exact Hin.
Qed.

Lemma known_extends st st' bid :
  extends st st' -> known st bid = true -> known st' bid = true.
Proof.
  rewrite !known_spec. intros Hext [Hreg|Hin]; [left | right; exact Hin].
  apply (extends_businesses _ _ Hext), Hreg.
Qed.

Lemma extends_step rq st : extends st (step env rq st).
Proof.
  destruct rq as [id body|clock r].
  - split; simpl; auto. intros bid Hbid.
    destruct (decide (id = bid)) as [->|Hne].
    + rewrite lookup_insert_eq. eauto.
    + rewrite lookup_insert_ne by exact Hne. exact Hbid.
  - destruct r; simpl; unfold_handlers; split_gate; simpl;
      split; simpl; auto using prefix_snoc.
Qed.

Lemma extends_run rqs : forall st, extends st (run env rqs st).
Proof.
  induction rqs as [|rq rqs IH]; intros st; simpl; [apply extends_refl|].
  eapply extends_trans; [apply extends_step | apply IH].
Qed.

(** X1: no request removes or rewrites a record: after any sequence of
    requests each of the five arrays starts with what it held before, in the
    same order, and every registered business is still registered. *)
Theorem stores_append_only rqs st :
  (forall bid, is_Some (businesses st !! bid) ->
               is_Some (businesses (run env rqs st) !! bid)) /\
  bookings st `prefix_of` bookings (run env rqs st) /\
  leads st `prefix_of` leads (run env rqs st) /\
  staff st `prefix_of` staff (run env rqs st) /\
  attendance st `prefix_of` attendance (run env rqs st) /\
  overtime st `prefix_of` overtime (run env rqs st).
Proof. destruct (extends_run rqs st). auto 10. Qed.

Lemma requireBiz_extends st st' h bid :
  extends st st' -> requireBiz st h = Ok bid -> requireBiz st' h = Ok bid.
Proof.
  intros Hext Hgate. apply requireBiz_Ok in Hgate as (Hh & Hne & Hk).
  apply requireBiz_known; eauto using known_extends.
Qed.

Lemma find_app_Some {A} (f : A -> bool) l k x :
  List.find f l = Some x -> List.find f (l ++ k) = Some x.
Proof.
  induction l as [|a l IH]; simpl; [discriminate|].
  destruct (f a); [trivial | exact IH].
Qed.

(** X2: a tenant the gate lets through is let through after any further
    requests: the registry only grows. *)
Theorem tenant_stays_registered rqs st h bid :
  requireBiz st h = Ok bid -> requireBiz (run env rqs st) h = Ok bid.
Proof. apply requireBiz_extends, extends_run. Qed.

(** X3: a login that succeeds keeps succeeding, with the same answer at the
    same clock, after any further requests: [find] takes the first matching
    record and later records are only appended, so a duplicate created later
    never takes the place of an account. *)
Theorem login_stable rqs clock st h body resp :
  post_staff_login env clock h body st = Ok resp ->
  post_staff_login env clock h body (run env rqs st) = Ok resp.
Proof.
  intros Hlogin. pose proof (extends_run rqs st) as Hext.
  unfold post_staff_login in *.
  destruct (requireBiz st h) as [bid|] eqn:Hgate; [|discriminate].
  rewrite (requireBiz_extends st _ h bid Hext Hgate). simpl in *.
  destruct (extends_staff _ _ Hext) as [k ->].
  destruct (List.find (credentials_match bid body) (staff st)) as [s|] eqn:Hfind;
    [|discriminate].
  rewrite (find_app_Some _ _ k s Hfind). exact Hlogin.
Qed.

(** X4: what [GET /bookings] and [GET /staff/agenda] return only grows at the
    end: after any further requests the answer is the earlier answer
    followed by the bookings stored since. *)
Theorem listings_grow rqs clock q st l :
  run_list env clock q st = Ok l ->
  match l with
  | Bookings l0 =>
      exists k, run_list env clock q (run env rqs st) = Ok (Bookings (l0 ++ k))
  | Agenda l0 =>
      exists k, run_list env clock q (run env rqs st) = Ok (Agenda (l0 ++ k))
  | Faqs _ => True
  end.
Proof.
  pose proof (extends_run rqs st) as Hext.
  destruct (extends_bookings _ _ Hext) as [k Hk].
  destruct q as [h|h|h]; simpl; unfold_handlers.
  - destruct (requireBiz st h) as [bid|] eqn:Hgate; simpl; [|discriminate].
    rewrite (requireBiz_extends st _ h bid Hext Hgate). simpl.
    intros [= <-]. rewrite Hk, List.filter_app. eauto.
  - destruct (requireStaff env clock h) as [user|]; simpl; [|discriminate].
    intros [= <-]. rewrite Hk, List.filter_app. eauto.
  - destruct (requireBiz st h) as [bid|]; simpl; [|discriminate].
    intros [= <-]. exact I.
Qed.

End Monotone.

(** ** What holds of every state the server can be in *)

Lemma or_else_truthy v d : truthy d = true -> truthy (or_else v d) = true.
Proof. intros Hd. unfold or_else. destruct (truthy v) eqn:Hv; assumption. Qed.

Lemma or_else_cases v d : or_else v d = d \/ truthy (or_else v d) = true.
Proof. unfold or_else. destruct (truthy v) eqn:Hv; auto. Qed.

Lemma requireBiz_gate_known st h bid : requireBiz st h = Ok bid -> known st bid = true.
Proof. intros Hgate. apply (requireBiz_Ok st h bid Hgate). Qed.

(** An own property is read before anything inherited. *)
Lemma get_own k o v : Plain.own o !! k = Some v -> Plain.get k o = Some (Data v).
Proof. intros Hv. unfold Plain.get. rewrite Hv. reflexivity. Qed.

(** A write leaves the own properties as they are, or defines the one it
    names. *)
Lemma own_set k v o k' :
  Plain.own (Plain.set k v o) !! k' = Plain.own o !! k' \/
  k = k' /\ Plain.own (Plain.set k v o) !! k' = Some v.
Proof.
  unfold Plain.set.
  destruct (String.eqb k "__proto__"
            && negb (bool_decide (is_Some (Plain.own o !! k)))
            && Plain.reaches_accessor (Plain.proto o)).
  - left. destruct v; reflexivity.
  - simpl. destruct (decide (k = k')) as [->|Hne].
    + right. split; [reflexivity | apply lookup_insert_eq].
    + left. apply lookup_insert_ne. exact Hne.
Qed.

Lemma get_faqs_stored st h bid x :
  requireBiz st h = Ok bid ->
  faqs st !! bid = Some x -> Plain.truthy x = true ->
  get_faqs h st = Ok x.
Proof.
  intros Hgate Hx Ht. unfold get_faqs. rewrite Hgate. simpl.
  rewrite Hx, Ht. reflexivity.
Qed.

Section Reachable.

Context {jwt : Jwt}.
Variable env : option string.

Lemma well_formed_empty : well_formed empty_state.
Proof.
  split; simpl; try constructor.
  - apply map_Forall_empty.
  - intros bid [x Hx]. rewrite lookup_empty in Hx. discriminate.
Qed.

Lemma well_formed_business_create id body st :
  well_formed st -> well_formed (snd (post_business_create id body st)).
Proof.
  intros [Htz Hfaqs Hb Hl Hs Ho].
  assert (Hk : forall bid,
             known st bid = true ->
             known (snd (post_business_create id body st)) bid = true).
  { intros bid. apply known_extends.
    apply (extends_step env (PostBusinessCreate id body) st). }
  split.
  - apply map_Forall_insert_2; [|exact Htz]. apply or_else_truthy. reflexivity.
  - intros bid Hbid. simpl in *. destruct (decide (id = bid)) as [->|Hne].
    + rewrite lookup_insert_eq. eexists. split; reflexivity.
    + rewrite lookup_insert_ne by exact Hne. apply Hfaqs.
      rewrite lookup_insert_ne in Hbid by exact Hne. exact Hbid.
  - eapply Forall_impl; [|exact Hb]. intros b (? & ? & ? & ?). auto.
  - eapply Forall_impl; [|exact Hl]. intros l ?. auto.
  - eapply Forall_impl; [|exact Hs]. intros s (? & ?). auto.
  - exact Ho.
Qed.

Lemma well_formed_create clock r st :
  well_formed st -> well_formed (run_create env clock r st).
Proof.
  intros Hwf. pose proof Hwf as [Htz Hfaqs Hb Hl Hs Ho].
  destruct r; simpl; unfold_handlers; split_gate; simpl; try exact Hwf;
    try apply requireBiz_gate_known in Hgate;
    split; try assumption.
  - apply Forall_app. split; [exact Hb|]. constructor; [|constructor].
    split; [exact Hgate|]. split; [reflexivity|].
    split; apply or_else_cases.
  - apply Forall_app. split; [exact Hl|]. constructor; [|constructor]. exact Hgate.
  - apply Forall_app. split; [exact Hs|]. constructor; [|constructor].
    split; [exact Hgate|]. apply or_else_truthy. reflexivity.
  - apply Forall_app. split; [exact Ho|]. constructor; [|constructor]. reflexivity.
  - intros b Hb'. simpl.
    destruct (own_set bid (or_else (items body) (VArr [])) (faqs st) b)
      as [Heq|[_ Heq]]; rewrite Heq.
    + apply Hfaqs, Hb'.
    + eexists. split; [reflexivity|]. apply or_else_truthy. reflexivity.
Qed.

Lemma well_formed_run rqs : forall st, well_formed st -> well_formed (run env rqs st).
Proof.
  induction rqs as [|[id body|clock r] rqs IH]; intros st Hwf; simpl;
    [exact Hwf | apply IH, well_formed_business_create, Hwf
    | apply IH, well_formed_create, Hwf].
Qed.

Lemma on_agenda_confirmed user b :
  Booking.status b = "confirmed" -> on_agenda user b = assigned_to user b.
Proof.
  intros Hst. unfold on_agenda, assigned_to. rewrite Hst. apply andb_true_r.
Qed.

Lemma filter_ext_Forall {A} (f g : A -> bool) (P : A -> Prop) l :
  (forall x, P x -> f x = g x) -> Forall P l -> List.filter f l = List.filter g l.
Proof.
  intros Hfg. induction 1 as [|x l Hx _ IH]; simpl; [reflexivity|].
  rewrite (Hfg x Hx), IH. reflexivity.
Qed.

(** X5: no request stores or sets a status other than ["confirmed"], so in
    every state reached from the empty stores all bookings are confirmed and
    the agenda's test on ["cancelled"] removes nothing: the agenda is the
    session's business's bookings whose [staffId] is the session's. *)
Theorem bookings_never_cancelled rqs :
  let st := run env rqs empty_state in
  Forall (fun b => Booking.status b = "confirmed") (bookings st) /\
  forall clock h,
    get_staff_agenda env clock h st =
    (user ← requireStaff env clock h;
     Ok (List.filter (assigned_to user) (bookings st))).
Proof.
  intros st.
  assert (Hconf : Forall (fun b => Booking.status b = "confirmed") (bookings st)).
  { eapply Forall_impl; [|apply (wf_bookings _ (well_formed_run rqs _ well_formed_empty))].
    intros b (_ & Hst & _). exact Hst. }
  split; [exact Hconf|]. intros clock h. unfold get_staff_agenda.
  destruct (requireStaff env clock h) as [user|]; simpl; [|reflexivity].
  f_equal. apply (filter_ext_Forall _ _ _ _ (on_agenda_confirmed user) Hconf).
Qed.

(** X6: in every state reached from the empty stores, each booking, lead and
    staff record carries an id the tenant gate knows: the id of a registered
    business, or one of the names [businesses] inherits from
    [Object.prototype], such as ["constructor"], under which the gate lets
    requests through although nothing was registered. *)
Theorem records_of_known_businesses rqs :
  let st := run env rqs empty_state in
  Forall (fun b => is_Some (businesses st !! Booking.businessId b) \/
                   Booking.businessId b ∈ Plain.object_prototype_names)
         (bookings st) /\
  Forall (fun l => is_Some (businesses st !! Lead.businessId l) \/
                   Lead.businessId l ∈ Plain.object_prototype_names)
         (leads st) /\
  Forall (fun s => is_Some (businesses st !! Staff.businessId s) \/
                   Staff.businessId s ∈ Plain.object_prototype_names)
         (staff st).
Proof.
  intros st.
  destruct (well_formed_run rqs _ well_formed_empty) as [_ _ Hb Hl Hs _].
  split; [|split].
  - eapply Forall_impl; [|exact Hb]. intros b (Hk & _). apply known_spec, Hk.
  - eapply Forall_impl; [|exact Hl]. intros l Hk. apply known_spec, Hk.
  - eapply Forall_impl; [|exact Hs]. intros s (Hk & _). apply known_spec, Hk.
Qed.

(** X7: in every state reached from the empty stores a registered business
    passes the gate and has a FAQ entry of its own, and a truthy one, so its
    [GET /faqs] answers with the stored value: never with the fallback [[]]
    of [||], and never with something inherited, whatever was posted under
    other ids. *)
Theorem registered_tenant_has_faqs rqs h bid :
  let st := run env rqs empty_state in
  x_business_id h = Some bid ->
  bid <> "" ->
  is_Some (businesses st !! bid) ->
  requireBiz st h = Ok bid /\
  exists v,
    Plain.own (faqs st) !! bid = Some v /\ faqs st !! bid = Some (Data v) /\
    truthy v = true /\ get_faqs h st = Ok (Data v).
Proof.
  intros st Hh Hne Hreg.
  assert (Hgate : requireBiz st h = Ok bid).
  { apply requireBiz_known; [exact Hh | exact Hne |]. apply known_spec. auto. }
  split; [exact Hgate|]. subst st.
  destruct (wf_faqs _ (well_formed_run rqs _ well_formed_empty) bid Hreg)
    as (v & Hv & Ht).
  exists v. split; [exact Hv|]. split; [exact (get_own _ _ _ Hv)|].
  split; [exact Ht|].
  apply (get_faqs_stored _ h bid _ Hgate (get_own _ _ _ Hv)). exact Ht.
Qed.

(** X8: the defaults are always in place: in every state reached from the
    empty stores each staff record has a truthy role, each booking a
    [staffId] that is [null] or truthy and [notes] that are [""] or truthy,
    each overtime request is ["pending"], and each business has a truthy
    timezone. *)
Theorem defaults_in_place rqs :
  let st := run env rqs empty_state in
  Forall (fun s => truthy (Staff.role s) = true) (staff st) /\
  Forall (fun b =>
            (Booking.staffId b = VNull \/ truthy (Booking.staffId b) = true) /\
            (Booking.notes b = VStr "" \/ truthy (Booking.notes b) = true))
         (bookings st) /\
  Forall (fun o => Overtime.status o = "pending") (overtime st) /\
  map_Forall (fun _ b => truthy (Business.timezone b) = true) (businesses st).
Proof.
  intros st.
  destruct (well_formed_run rqs _ well_formed_empty) as [Htz _ Hb _ Hs Ho].
  split; [|split; [|split]]; [| | exact Ho | exact Htz].
  - eapply Forall_impl; [|exact Hs]. intros s (_ & ?). assumption.
  - eapply Forall_impl; [|exact Hb]. intros b (_ & _ & ? & ?). auto.
Qed.

End Reachable.

(** ** Who the tenant gate lets through *)

Section Registry.

Context {jwt : Jwt}.
Variable env : option string.

Lemma businesses_step rq st bid :
  is_Some (businesses (step env rq st) !! bid) <->
  is_Some (businesses st !! bid) \/ exists body, rq = PostBusinessCreate bid body.
Proof.
  destruct rq as [id body|clock r]; simpl.
  - destruct (decide (id = bid)) as [->|Hne].
    + rewrite lookup_insert_eq. split; eauto.
    + rewrite lookup_insert_ne by exact Hne. split; [auto|].
      intros [Hb|[body' [=]]]; [exact Hb | contradiction].
  - rewrite (businesses_run_create env clock r st). split; [auto|].
    intros [Hb|[body [=]]]. exact Hb.
Qed.

Lemma businesses_run rqs : forall st bid,
  is_Some (businesses (run env rqs st) !! bid) <->
  is_Some (businesses st !! bid) \/ exists body, PostBusinessCreate bid body ∈ rqs.
Proof.
  induction rqs as [|rq rqs IH]; intros st bid; simpl.
  - split; [auto|]. intros [Hb|[body Hin]]; [exact Hb | inversion Hin].
  - rewrite IH, businesses_step. split.
    + intros [[Hb|[body ->]]|[body Hin]]; [auto | right | right];
        exists body; [left | right; exact Hin].
    + intros [Hb|[body Hin]]; [auto|].
      apply elem_of_cons in Hin as [<-|Hin]; [left; right | right]; eauto.
Qed.

(** X9: starting from the empty stores, the tenant gate lets a request
    through exactly when its [X-Business-Id] header is non-empty and is
    either an id that an earlier [POST /business/create] was given or one of
    the twelve names [businesses] inherits from [Object.prototype]; no other
    route registers a tenant. *)
Theorem tenant_gate_opens_on_create_or_inherited_name rqs h bid :
  requireBiz (run env rqs empty_state) h = Ok bid <->
  x_business_id h = Some bid /\ bid <> "" /\
  ((exists body, PostBusinessCreate bid body ∈ rqs) \/
   bid ∈ Plain.object_prototype_names).
Proof.
  assert (Hreg : is_Some (businesses (run env rqs empty_state) !! bid) <->
                 exists body, PostBusinessCreate bid body ∈ rqs).
  { rewrite businesses_run. split; [|auto].
    intros [[x Hx]|Hin]; [|exact Hin]. simpl in Hx.
    rewrite lookup_empty in Hx. discriminate. }
  rewrite <- Hreg, <- known_spec. split.
  - apply requireBiz_Ok.
  - intros (Hh & Hne & Hk). apply requireBiz_known; assumption.
Qed.

End Registry.

(** X10: [POST /business/create] with a non-empty id opens that tenant: its
    gate passes and its [GET /faqs] answers with the two seeded entries,
    whatever was stored under that id before; every other tenant's gate,
    FAQs and bookings answer as before. *)
Theorem business_create_opens_tenant id body st h :
  id <> "" ->
  x_business_id h = Some id ->
  let st' := snd (post_business_create id body st) in
  requireBiz st' h = Ok id /\
  get_faqs h st' = Ok (Data default_faqs) /\
  forall h' bid,
    requireBiz st h' = Ok bid -> bid <> id ->
    requireBiz st' h' = Ok bid /\
    get_faqs h' st' = get_faqs h' st /\
    get_bookings h' st' = get_bookings h' st.
Proof.
  intros Hid Hh st'.
  assert (Hgate : requireBiz st' h = Ok id).
  { apply requireBiz_known; [exact Hh | exact Hid |].
    apply known_spec. left. subst st'. simpl. rewrite lookup_insert_eq. eauto. }
  split; [exact Hgate|]. split.
  - unfold get_faqs. rewrite Hgate. subst st'. simpl.
    unfold lookup, plain_lookup. rewrite get_define.
    destruct (decide (id = id)); [reflexivity | contradiction].
  - intros h' bid Hgate' Hne.
    assert (Hgate'' : requireBiz st' h' = Ok bid).
    { apply requireBiz_Ok in Hgate' as (Hh' & Hne' & Hk).
      apply requireBiz_known; [exact Hh' | exact Hne' |].
      apply known_spec in Hk. apply known_spec.
      destruct Hk as [Hk|Hk]; [left | right; exact Hk].
      subst st'. simpl. rewrite lookup_insert_ne by congruence. exact Hk. }
    split; [exact Hgate''|]. unfold get_faqs, get_bookings.
    rewrite Hgate'', Hgate'. subst st'. simpl.
    unfold lookup at 1, plain_lookup. rewrite get_define.
    destruct (decide (id = bid)) as [->|_]; [contradiction|].
    split; reflexivity.
Qed.

(** ** Staff accounts *)

Lemma find_app_None {A} (f : A -> bool) l k :
  List.find f l = None -> List.find f (l ++ k) = List.find f k.
Proof.
  induction l as [|a l IH]; simpl; [reflexivity|].
  destruct (f a); [discriminate | exact IH].
Qed.

Section Accounts.

Context {jwt : Jwt}.
Variable env : option string.

Lemma login_refused_find clock st h bid body :
  requireBiz st h = Ok bid ->
  post_staff_login env clock h body st = Err 401 "Invalid credentials" ->
  List.find (credentials_match bid body) (staff st) = None.
Proof.
  intros Hgate. rewrite (post_staff_login_find env clock st h bid body Hgate).
  destruct (List.find (credentials_match bid body) (staff st)); [discriminate|].
  reflexivity.
Qed.

(** X11: a staff record created with a string name, national id and pin can
    log in with them at once.  When nobody could log in with them before,
    the answer names the new record, with the role it was given or
    ["staff"]; and a pin that differs from the one just stored, and that
    opened no account before, still opens none. *)
Theorem staff_create_then_login clock id st h bid n i p role :
  requireBiz st h = Ok bid ->
  let created := {| sb_name := VStr n; sb_nationalId := VStr i;
                    sb_pin := VStr p; sb_role := role |} in
  let creds p := {| lb_name := VStr n; lb_nationalId := VStr i;
                    lb_pin := VStr p |} in
  exists st',
    post_staff_create id h created st = Ok (id, st') /\
    (exists resp, post_staff_login env clock h (creds p) st' = Ok resp) /\
    (post_staff_login env clock h (creds p) st = Err 401 "Invalid credentials" ->
     exists tok,
       post_staff_login env clock h (creds p) st' =
       Ok {| token := tok; staff_id := id; staff_name := VStr n;
             staff_role := or_else role (VStr "staff") |}) /\
    (forall p',
       p' <> p ->
       post_staff_login env clock h (creds p') st = Err 401 "Invalid credentials" ->
       post_staff_login env clock h (creds p') st' = Err 401 "Invalid credentials").
Proof.
  intros Hgate created creds.
  eexists. split; [unfold post_staff_create; rewrite Hgate; reflexivity|].
  set (s := {| Staff.id := id; Staff.businessId := bid;
               Staff.name := sb_name created;
               Staff.nationalId := sb_nationalId created;
               Staff.pin := sb_pin created;
               Staff.role := or_else (sb_role created) (VStr "staff") |}).
  assert (Hgate' : requireBiz (with_staff st (staff st ++ [s])) h = Ok bid)
    by exact Hgate.
  assert (Hself : credentials_match bid (creds p) s = true).
  { unfold credentials_match. simpl. rewrite !String.eqb_refl. reflexivity. }
  assert (Hnew : forall body,
             List.find (credentials_match bid body) (staff st) = None ->
             post_staff_login env clock h body (with_staff st (staff st ++ [s])) =
             match List.find (credentials_match bid body) [s] with
             | None => Unauthorized "Invalid credentials"
             | Some s =>
                 Ok {| token := jwt_sign {| Claims.staffId := VStr (Staff.id s);
                                            Claims.businessId := VStr bid;
                                            Claims.role := Staff.role s |}
                                         (JWT_SECRET env) expiresIn clock;
                       staff_id := Staff.id s; staff_name := Staff.name s;
                       staff_role := Staff.role s |}
             end).
  { intros body Hnone.
    rewrite (post_staff_login_find env clock _ h bid body Hgate'). simpl.
    rewrite (find_app_None _ _ [s] Hnone). reflexivity. }
  split; [|split].
  - rewrite (post_staff_login_find env clock _ h bid (creds p) Hgate'). simpl.
    destruct (List.find (credentials_match bid (creds p)) (staff st)) as [s0|] eqn:Hfind.
    + rewrite (find_app_Some _ _ [s] s0 Hfind). eauto.
    + rewrite (find_app_None _ _ [s] Hfind). simpl. rewrite Hself. eauto.
  - intros Hrefused.
    rewrite (Hnew _ (login_refused_find clock st h bid _ Hgate Hrefused)).
    simpl. rewrite Hself. eexists. reflexivity.
  - intros p' Hp' Hrefused.
    rewrite (Hnew _ (login_refused_find clock st h bid _ Hgate Hrefused)).
    assert (Hother : credentials_match bid (creds p') s = false).
    { unfold credentials_match. simpl.
      destruct (String.eqb_spec p p') as [->|_]; [contradiction|].
      apply andb_false_r. }
    simpl. rewrite Hother. reflexivity.
Qed.

End Accounts.

(** ** Bookings and the agenda *)

Lemma filter_sublist_implied {A} (f g : A -> bool) l :
  (forall x, f x = true -> g x = true) ->
  List.filter f l `sublist_of` List.filter g l.
Proof.
  intros Hfg. induction l as [|a l IH]; simpl; [constructor|].
  destruct (f a) eqn:Hfa.
  - rewrite (Hfg a Hfa). apply sublist_skip, IH.
  - destruct (g a); [apply sublist_cons, IH | exact IH].
Qed.

Lemma strict_eq_null_l v : strict_eq VNull v = true <-> v = VNull.
Proof. destruct v; simpl; split; congruence. Qed.

Section Agenda.

Context {jwt : Jwt}.
Variable env : option string.

(** X12: a booking posted behind the tenant gate is stored confirmed under
    the tenant's id and is the last entry of the tenant's next
    [GET /bookings].  It is added to the agenda of a session of that tenant
    exactly when its [staffId] is [===] the session's.  A booking posted
    without a [staffId] is stored with [null]: it is added to the agenda of
    no session whose [staffId] is anything else than [null], so of no
    session a login has issued. *)
Theorem booking_then_listed id st h bid body :
  requireBiz st h = Ok bid ->
  exists e st',
    post_bookings id h body st = Ok (e, st') /\
    Booking.id e = id /\ Booking.businessId e = bid /\
    Booking.status e = "confirmed" /\
    (forall l, get_bookings h st = Ok l -> get_bookings h st' = Ok (l ++ [e])) /\
    (forall clock h' user l,
       requireStaff env clock h' = Ok user ->
       Session.businessId user = VStr bid ->
       get_staff_agenda env clock h' st = Ok l ->
       get_staff_agenda env clock h' st' =
       Ok (l ++ if strict_eq (Booking.staffId e) (Session.staffId user)
                then [e] else [])) /\
    (truthy (kb_staffId body) = false ->
     Booking.staffId e = VNull /\
     forall clock h',
       (forall user, requireStaff env clock h' = Ok user ->
                     Session.staffId user <> VNull) ->
       get_staff_agenda env clock h' st' = get_staff_agenda env clock h' st).
Proof.
  intros Hgate.
  set (e := {| Booking.id := id; Booking.businessId := bid;
               Booking.clientName := kb_clientName body;
               Booking.contact := kb_contact body;
               Booking.service := kb_service body;
               Booking.when := kb_when body;
               Booking.staffId := or_else (kb_staffId body) VNull;
               Booking.notes := or_else (kb_notes body) (VStr "");
               Booking.status := "confirmed" |}).
  exists e, (with_bookings st (bookings st ++ [e])).
  assert (Hgate' : requireBiz (with_bookings st (bookings st ++ [e])) h = Ok bid)
    by exact Hgate.
  split; [unfold post_bookings; rewrite Hgate; reflexivity|].
  split; [reflexivity|]. split; [reflexivity|]. split; [reflexivity|].
  split; [|split].
  - intros l. unfold get_bookings. rewrite Hgate', Hgate.
    simpl. intros [= <-]. rewrite List.filter_app. simpl.
    rewrite String.eqb_refl. reflexivity.
  - intros clock h' user l Huser Hbid. unfold get_staff_agenda.
    rewrite Huser. simpl. intros [= <-]. rewrite List.filter_app. simpl.
    unfold on_agenda at 2. simpl. rewrite Hbid. simpl.
    rewrite String.eqb_refl. simpl.
    rewrite andb_true_r. reflexivity.
  - intros Hfalsy.
    assert (Hnull : Booking.staffId e = VNull)
      by (simpl; unfold or_else; rewrite Hfalsy; reflexivity).
    split; [exact Hnull|].
    intros clock h' Hstaff. unfold get_staff_agenda.
    destruct (requireStaff env clock h') as [user|]; simpl; [|reflexivity].
    rewrite List.filter_app. simpl. unfold on_agenda at 2. rewrite Hnull.
    destruct (strict_eq VNull (Session.staffId user)) eqn:Hs.
    + apply strict_eq_null_l in Hs. destruct (Hstaff user eq_refl Hs).
    + rewrite andb_false_r. simpl. rewrite app_nil_r. reflexivity.
Qed.

(** X13: the agenda of a session is a sub-list, in the same order, of what
    [GET /bookings] answers to the session's business, and the [staffId] of
    every booking on it is [===] the session's: the same string, when the
    session's is a string. *)
Theorem agenda_within_bookings clock st h h' user bid :
  requireStaff env clock h' = Ok user ->
  Session.businessId user = VStr bid ->
  requireBiz st h = Ok bid ->
  exists la lb,
    get_staff_agenda env clock h' st = Ok la /\
    get_bookings h st = Ok lb /\
    la `sublist_of` lb /\
    Forall (fun b => strict_eq (Booking.staffId b) (Session.staffId user) = true) la /\
    (forall s, Session.staffId user = VStr s ->
               Forall (fun b => Booking.staffId b = VStr s) la).
Proof.
  intros Huser Hbid Hgate. unfold get_staff_agenda, get_bookings.
  rewrite Huser, Hgate. simpl. eexists. eexists.
  split; [reflexivity|]. split; [reflexivity|].
  assert (Hall : Forall (fun b => strict_eq (Booking.staffId b)
                                    (Session.staffId user) = true)
                   (List.filter (on_agenda user) (bookings st))).
  { apply List.Forall_forall. intros b Hb.
    apply List.filter_In in Hb as [_ Hb]. unfold on_agenda in Hb.
    rewrite !andb_true_iff in Hb. destruct Hb as [[_ Hb] _]. exact Hb. }
  split; [|split; [exact Hall|]].
  - apply filter_sublist_implied. intros b Hb.
    apply on_agenda_tenant in Hb. rewrite Hbid in Hb. injection Hb as ->.
    apply String.eqb_refl.
  - intros s Hs. eapply Forall_impl; [|exact Hall]. intros b Hb.
    rewrite Hs in Hb. apply strict_eq_string_r in Hb. exact Hb.
Qed.

(** ** What a request does to the stores *)

(** X14: a create request its gate refuses changes nothing; one its gate
    lets through appends exactly one record to the arrays, or none when it
    is [POST /faqs]. *)
Theorem create_appends_one_or_nothing clock r st :
  match create_tenant env clock r st with
  | None => run_create env clock r st = st
  | Some _ =>
      records (run_create env clock r st) =
      (records st + match r with PostFaqs _ _ => 0 | _ => 1 end)%nat
  end.
Proof.
  destruct r; simpl; unfold_handlers; split_gate; simpl;
    try reflexivity; unfold records; simpl; rewrite ?length_app; simpl; lia.
Qed.

(** X15: leads, attendance events and overtime requests are write-only: a
    request that stores one changes the answer of no list request and of no
    login. *)
Theorem write_only_stores clock r st :
  unlisted r = true ->
  (forall clock' q,
     run_list env clock' q (run_create env clock r st) = run_list env clock' q st) /\
  (forall clock' h body,
     post_staff_login env clock' h body (run_create env clock r st) =
     post_staff_login env clock' h body st).
Proof.
  intros Hr.
  destruct r; try discriminate; simpl; unfold_handlers; split_gate; simpl;
    split; reflexivity.
Qed.

End Agenda.

(** ** FAQs *)

(** X16: [POST /faqs] checks no shape: whatever truthy value [items] holds,
    a string or a number as well as a list, is stored and is what the
    tenant's next [GET /faqs] answers, for every id the gate lets through
    but ["__proto__"], where the write goes to the setter [faqs] inherits. *)
Theorem faqs_store_any_truthy st h bid v :
  requireBiz st h = Ok bid ->
  bid <> "__proto__" ->
  truthy v = true ->
  exists st',
    post_faqs h {| items := v |} st = Ok (true, st') /\ get_faqs h st' = Ok (Data v).
Proof.
  intros Hgate Hbid Hv. eexists. split; [apply (post_faqs_stores st h bid _ Hgate)|].
  assert (Hitems : or_else v (VArr []) = v) by (unfold or_else; rewrite Hv; reflexivity).
  rewrite Hitems, (set_define bid v (faqs st) Hbid).
  apply (get_faqs_reads st h bid _ (Data v) Hgate); [|exact Hv].
  unfold lookup, plain_lookup. rewrite get_define.
  destruct (decide (bid = bid)); [reflexivity | contradiction].
Qed.

(** ** Names every object inherits *)

Lemma inherited_name_not_empty name : name ∈ Plain.object_prototype_names -> name <> "".
Proof. intros Hin ->. apply in_names_spec in Hin. discriminate Hin. Qed.

(** X21: the tenant gate reads [businesses[bid]] with no test that [bid] is
    an own key, so the names of the members of [Object.prototype] pass it in
    every state, the empty stores included: a booking posted under such a
    name is stored with it as its [businessId] and listed back by
    [GET /bookings] under the same name. *)
Theorem inherited_names_pass_gate st h name id body :
  name ∈ Plain.object_prototype_names ->
  x_business_id h = Some name ->
  requireBiz st h = Ok name /\
  exists e st',
    post_bookings id h body st = Ok (e, st') /\
    Booking.businessId e = name /\
    e ∈ bookings st' /\
    exists l, get_bookings h st' = Ok (l ++ [e]).
Proof.
  intros Hin Hh.
  assert (Hgate : requireBiz st h = Ok name).
  { apply requireBiz_known; [exact Hh | exact (inherited_name_not_empty _ Hin) |].
    apply known_spec. right. exact Hin. }
  split; [exact Hgate|].
  unfold post_bookings. rewrite Hgate. simpl. eexists. eexists.
  split; [reflexivity|]. split; [reflexivity|]. split.
  - simpl. apply elem_of_app. right. apply list_elem_of_singleton. reflexivity.
  - unfold get_bookings.
    rewrite (requireBiz_businesses st (with_bookings st _) h eq_refl), Hgate.
    simpl. rewrite List.filter_app. simpl. rewrite String.eqb_refl.
    eexists. reflexivity.
Qed.

(** X22: [POST /faqs] under ["__proto__"] with an object replaces the
    prototype of [faqs], while no own property of that name shadows the
    setter: afterwards the fields of the posted object are what
    [GET /faqs] answers for every id the gate lets through that has no FAQ
    entry of its own. *)
Theorem faqs_prototype_replaced st h h' fields k v :
  x_business_id h = Some "__proto__" ->
  Plain.own (faqs st) !! "__proto__" = None ->
  Plain.reaches_accessor (Plain.proto (faqs st)) = true ->
  requireBiz st h' = Ok k ->
  Plain.own (faqs st) !! k = None ->
  Plain.field k fields = Some v ->
  truthy v = true ->
  exists st',
    post_faqs h {| items := VObj fields |} st = Ok (true, st') /\
    Plain.proto (faqs st') = Plain.ObjectValue fields /\
    Plain.own (faqs st') = Plain.own (faqs st) /\
    get_faqs h' st' = Ok (Data v).
Proof.
  intros Hh Hown Hacc Hgate Hk Hfield Hv.
  assert (Hproto : requireBiz st h = Ok "__proto__").
  { apply requireBiz_known; [exact Hh | discriminate |].
    apply known_spec. right. apply in_names_spec. reflexivity. }
  assert (Hset : Plain.set "__proto__" (VObj fields) (faqs st) =
                 {| Plain.own := Plain.own (faqs st);
                    Plain.proto := Plain.ObjectValue fields |}).
  { unfold Plain.set. rewrite Hown, Hacc. reflexivity. }
  eexists. split; [apply (post_faqs_stores st h _ _ Hproto)|].
  change (or_else (VObj fields) (VArr [])) with (VObj fields). rewrite Hset.
  split; [reflexivity|]. split; [reflexivity|].
  apply (get_faqs_reads st h' k _ (Data v) Hgate); [|exact Hv].
  unfold lookup, plain_lookup, Plain.get. simpl. rewrite Hk, Hfield. reflexivity.
Qed.

(** X23: [POST /faqs] under ["__proto__"] with a truthy string, number or
    boolean answers [{ ok: true }] and stores nothing: the setter ignores
    what is neither an object nor [null], and on untouched FAQs the next
    [GET /faqs] under that name answers with [Object.prototype] itself. *)
Theorem faqs_proto_primitive_ignored st h v :
  x_business_id h = Some "__proto__" ->
  Plain.own (faqs st) !! "__proto__" = None ->
  Plain.reaches_accessor (Plain.proto (faqs st)) = true ->
  truthy v = true ->
  (forall l, v <> VArr l) -> (forall fields, v <> VObj fields) ->
  exists st',
    post_faqs h {| items := v |} st = Ok (true, st') /\
    faqs st' = faqs st /\
    (Plain.proto (faqs st) = Plain.ObjectPrototype ->
     get_faqs h st' = Ok (Native "Object.prototype")).
Proof.
  intros Hh Hown Hacc Hv Harr Hobj.
  assert (Hproto : requireBiz st h = Ok "__proto__").
  { apply requireBiz_known; [exact Hh | discriminate |].
    apply known_spec. right. apply in_names_spec. reflexivity. }
  assert (Hitems : or_else v (VArr []) = v) by (unfold or_else; rewrite Hv; reflexivity).
  assert (Hset : Plain.set "__proto__" v (faqs st) = faqs st).
  { unfold Plain.set. rewrite Hown, Hacc. simpl.
    destruct v; try reflexivity; try discriminate Hv;
      [destruct (Harr _ eq_refl) | destruct (Hobj _ eq_refl)]. }
  eexists. split; [apply (post_faqs_stores st h _ _ Hproto)|].
  rewrite Hitems, Hset. split; [reflexivity|].
  intros Hp. apply (get_faqs_reads st h "__proto__" _ _ Hproto); [|reflexivity].
  unfold lookup, plain_lookup, Plain.get. rewrite Hown, Hp. reflexivity.
Qed.

(** ** The staff gate *)

Lemma append_assoc_cons s a t : ((s ++ String a "") ++ t = s ++ String a t)%string.
Proof. induction s as [|b s IH]; simpl; [reflexivity|]. rewrite IH. reflexivity. Qed.

(** A pattern that ends with its only [c] does not match before the end of
    a stretch without [c]. *)
Lemma strip_prefix_too_early c q : forall a s1 s2,
  occurs c q = false -> occurs c (String a s1) = false ->
  strip_prefix (q ++ String c "") (String a s1 ++ (q ++ String c "") ++ s2) = None.
Proof.
  induction q as [|b q IH]; intros a s1 s2 Hq Hs1; simpl in *.
  - apply orb_false_elim in Hs1 as [Ha _].
    rewrite Ascii.eqb_sym, Ha. reflexivity.
  - apply orb_false_elim in Hq as [Hb Hq].
    destruct (Ascii.eqb b a); [|reflexivity].
    destruct s1 as [|a' s1]; simpl.
    + apply (IH b "" s2 Hq). simpl. rewrite Hb. reflexivity.
    + rewrite <- (append_assoc_cons s1 b).
      apply (IH a' (s1 ++ String b "")%string s2 Hq).
      simpl in *. apply orb_false_elim in Hs1 as [_ Hs1].
      apply orb_false_elim in Hs1 as [Ha' Hs1].
      rewrite Ha', occurs_app, Hs1. simpl. rewrite Hb. reflexivity.
Qed.

(** The occurrence that is cut out is the first one, wherever it is. *)
Lemma replace_first_occurrence c q rep s1 s2 :
  occurs c q = false -> occurs c s1 = false ->
  replace (q ++ String c "") rep (s1 ++ (q ++ String c "") ++ s2)
  = (s1 ++ rep ++ s2)%string.
Proof.
  intros Hq. induction s1 as [|a s1 IH]; intros Hs1.
  - simpl. apply replace_prefix.
  - change ((String a s1 ++ (q ++ String c "") ++ s2)%string)
      with (String a (s1 ++ (q ++ String c "") ++ s2)).
    cbn [replace].
    change (String a (s1 ++ (q ++ String c "") ++ s2))
      with ((String a s1 ++ (q ++ String c "") ++ s2)%string) at 1.
    rewrite (strip_prefix_too_early c q a s1 s2 Hq Hs1).
    simpl. f_equal. apply IH. simpl in Hs1.
    apply orb_false_elim in Hs1 as [_ Hs1]. exact Hs1.
Qed.

Section Gate.

Context {jwt : Jwt}.
Variable env : option string.

Lemma requireStaff_cut clock h s1 s2 :
  occurs " " s1 = false ->
  authorization h = Some (s1 ++ "Bearer " ++ s2)%string ->
  requireStaff env clock h =
  match jwt_verify (s1 ++ s2) (JWT_SECRET env) clock with
  | Some user => Ok user
  | None => Unauthorized "Invalid token"
  end.
Proof.
  intros Hs1 Hauth. unfold requireStaff. rewrite Hauth.
  assert (Hne : String.eqb (s1 ++ "Bearer " ++ s2) "" = false)
    by (destruct s1; reflexivity).
  rewrite Hne.
  rewrite (replace_first_occurrence " " "Bearer" "" s1 s2 eq_refl Hs1
           : replace "Bearer " "" (s1 ++ "Bearer " ++ s2) = (s1 ++ s2)%string).
  reflexivity.
Qed.

(** X17: the staff gate cuts the first ["Bearer "] out of the header wherever
    it stands, not only at the front: a token signed with the server's
    secret passes, before it expires, with ["Bearer "] written at any
    position inside it or after it. *)
Theorem bearer_cut_anywhere clock clock' p ttl h s1 s2 :
  (s1 ++ s2)%string = jwt_sign p (JWT_SECRET env) ttl clock ->
  clock' < clock + ttl ->
  authorization h = Some (s1 ++ "Bearer " ++ s2)%string ->
  requireStaff env clock' h = Ok (session_of p clock ttl).
Proof.
  intros Htok Hfresh Hauth.
  destruct (jwt_sign_compact p (JWT_SECRET env) ttl clock) as [_ Hsp].
  rewrite <- Htok, occurs_app in Hsp. apply orb_false_elim in Hsp as [Hs1 _].
  rewrite (requireStaff_cut clock' h s1 s2 Hs1 Hauth), Htok.
  rewrite (jwt_verify_sign _ _ _ _ _ Hfresh). reflexivity.
Qed.

(** X18: the session of a login ends after eight hours: from then on the
    token, bare or behind ["Bearer "], is answered 401 by the staff gate and
    by the routes behind it, which store nothing. *)
Theorem session_expires clock clock' st h body resp h' :
  post_staff_login env clock h body st = Ok resp ->
  clock + expiresIn <= clock' ->
  authorization h' = Some ("Bearer " ++ token resp)%string \/
  authorization h' = Some (token resp) ->
  requireStaff env clock' h' = Err 401 "Invalid token" /\
  (forall st', get_staff_agenda env clock' h' st' = Err 401 "Invalid token") /\
  (forall id st',
     post_staff_clock_in env id clock' h' st' = Err 401 "Invalid token" /\
     post_staff_clock_out env id clock' h' st' = Err 401 "Invalid token") /\
  (forall id ob st',
     post_staff_overtime env id clock' h' ob st' = Err 401 "Invalid token").
Proof.
  intros Hlogin Hlate Hauth.
  assert (Hgate : requireStaff env clock' h' = Err 401 "Invalid token").
  { unfold post_staff_login in Hlogin.
    destruct (requireBiz st h) as [bid|]; [|discriminate]. simpl in Hlogin.
    destruct (List.find (credentials_match bid body) (staff st)) as [s|];
      [|discriminate].
    injection Hlogin as <-. simpl in Hauth. destruct Hauth as [Hauth|Hauth].
    - rewrite (requireStaff_bearer env clock' h' _ Hauth).
      rewrite (jwt_verify_expired _ _ _ _ _ Hlate). reflexivity.
    - rewrite (requireStaff_raw env clock' h' _ _ _ _ Hauth).
      rewrite (jwt_verify_expired _ _ _ _ _ Hlate). reflexivity. }
  split; [exact Hgate|]. unfold_handlers. rewrite Hgate. auto.
Qed.

(** X19: with [JWT_SECRET] unset or empty the server signs and verifies with
    ["dev-secret-change-me"]: a token anyone signs with that string passes
    the staff gate with whatever staff and business ids it names, and a
    clock-in behind it stores an attendance event for them; the stores are
    not consulted. *)
Theorem default_secret_accepts_any_claims clock clock' ttl p h id st :
  env = None \/ env = Some EmptyString ->
  clock' < clock + ttl ->
  authorization h =
    Some ("Bearer " ++ jwt_sign p "dev-secret-change-me" ttl clock)%string ->
  requireStaff env clock' h = Ok (session_of p clock ttl) /\
  post_staff_clock_in env id clock' h st =
  Ok (true,
      with_attendance st
        (attendance st ++
         [ {| Attendance.id := id;
              Attendance.staffId := Claims.staffId p;
              Attendance.businessId := Claims.businessId p;
              Attendance.type_ := Attendance.In;
              Attendance.timestamp := clock' |} ])).
Proof.
  intros Henv Hfresh Hauth.
  assert (Hsecret : JWT_SECRET env = "dev-secret-change-me")
    by (destruct Henv as [->| ->]; reflexivity).
  assert (Hgate : requireStaff env clock' h = Ok (session_of p clock ttl)).
  { rewrite (requireStaff_bearer env clock' h _ Hauth), Hsecret.
    rewrite (jwt_verify_sign _ _ _ _ _ Hfresh). reflexivity. }
  split; [exact Hgate|].
  unfold post_staff_clock_in, clock_event. rewrite Hgate. reflexivity.
Qed.

End Gate.

(** ** The further properties on the sample data *)

Lemma tenant_stays_registered_witness :
  requireBiz Sample.salon (Sample.tenant "b1") = Ok "b1" /\
  requireBiz (run (jwt := ReferenceJwt.reference) None Demo.later Sample.salon)
    (Sample.tenant "b1") = Ok "b1".
Proof.
  split; [vm_compute; reflexivity|].
  apply (tenant_stays_registered (jwt := ReferenceJwt.reference) None Demo.later
           Sample.salon (Sample.tenant "b1") "b1").
  vm_compute. reflexivity.
Defined.

Lemma login_stable_witness :
  post_staff_login (jwt := ReferenceJwt.reference) None 0 (Sample.tenant "b1")
    Sample.jo_login Sample.salon_with_jo = Ok Sample.jo_logged_in /\
  post_staff_login (jwt := ReferenceJwt.reference) None 0 (Sample.tenant "b1")
    Sample.jo_login
    (run (jwt := ReferenceJwt.reference) None Demo.later Sample.salon_with_jo)
  = Ok Sample.jo_logged_in.
Proof.
  split; [vm_compute; reflexivity|].
  apply (login_stable (jwt := ReferenceJwt.reference) None Demo.later 0
           Sample.salon_with_jo (Sample.tenant "b1") Sample.jo_login
           Sample.jo_logged_in).
  vm_compute. reflexivity.
Defined.

Lemma listings_grow_witness :
  run_list (jwt := ReferenceJwt.reference) None 0 Sample.barber_lists
    Sample.two_salons = Ok (Bookings (bookings Sample.two_salons)) /\
  exists k,
    run_list (jwt := ReferenceJwt.reference) None 0 Sample.barber_lists
      (run (jwt := ReferenceJwt.reference) None Demo.later Sample.two_salons)
    = Ok (Bookings (bookings Sample.two_salons ++ k)).
Proof.
  split; [vm_compute; reflexivity|].
  apply (listings_grow (jwt := ReferenceJwt.reference) None Demo.later 0
           Sample.barber_lists Sample.two_salons
           (Bookings (bookings Sample.two_salons))).
  vm_compute. reflexivity.
Defined.

Lemma registered_tenant_has_faqs_witness :
  x_business_id (Sample.tenant "b1") = Some "b1" /\
  "b1" <> "" /\
  is_Some (businesses
             (run (jwt := ReferenceJwt.reference) None Demo.faq_traffic empty_state)
           !! "b1") /\
  requireBiz (run (jwt := ReferenceJwt.reference) None Demo.faq_traffic empty_state)
    (Sample.tenant "b1") = Ok "b1" /\
  exists v,
    Plain.own
      (faqs (run (jwt := ReferenceJwt.reference) None Demo.faq_traffic empty_state))
      !! "b1" = Some v /\
    faqs (run (jwt := ReferenceJwt.reference) None Demo.faq_traffic empty_state)
      !! "b1" = Some (Data v) /\
    truthy v = true /\
    get_faqs (Sample.tenant "b1")
      (run (jwt := ReferenceJwt.reference) None Demo.faq_traffic empty_state)
    = Ok (Data v).
Proof.
  assert (Hreg : is_Some (businesses
                            (run (jwt := ReferenceJwt.reference) None
                               Demo.faq_traffic empty_state) !! "b1"))
    by (vm_compute; eauto).
  split; [reflexivity|]. split; [discriminate|]. split; [exact Hreg|].
  apply (registered_tenant_has_faqs (jwt := ReferenceJwt.reference) None
           Demo.faq_traffic (Sample.tenant "b1") "b1");
    [reflexivity | discriminate | exact Hreg].
Defined.

Lemma business_create_opens_tenant_witness :
  "b2" <> "" /\
  x_business_id (Sample.tenant "b2") = Some "b2" /\
  get_faqs (Sample.tenant "b2")
    (snd (post_business_create "b2" Demo.barber Sample.salon))
  = Ok (Data default_faqs).
Proof.
  split; [discriminate|]. split; [reflexivity|].
  apply (business_create_opens_tenant "b2" Demo.barber Sample.salon
           (Sample.tenant "b2"));
    [discriminate | reflexivity].
Defined.

Lemma staff_create_then_login_witness :
  requireBiz Sample.salon (Sample.tenant "b1") = Ok "b1" /\
  exists st',
    post_staff_create "s1" (Sample.tenant "b1")
      {| sb_name := VStr "Jo"; sb_nationalId := VStr "123";
         sb_pin := VStr "9999"; sb_role := VUndefined |} Sample.salon
    = Ok ("s1", st') /\
    exists resp,
      post_staff_login (jwt := ReferenceJwt.reference) None 0
        (Sample.tenant "b1") Sample.jo_login st' = Ok resp.
Proof.
  split; [vm_compute; reflexivity|].
  destruct (staff_create_then_login (jwt := ReferenceJwt.reference) None 0 "s1"
              Sample.salon (Sample.tenant "b1") "b1" "Jo" "123" "9999" VUndefined)
    as (st' & Hcreate & Hlogin & _); [vm_compute; reflexivity|].
  exists st'. split; [exact Hcreate | exact Hlogin].
Defined.

Lemma booking_then_listed_witness :
  requireBiz Sample.two_salons (Sample.tenant "b1") = Ok "b1" /\
  requireStaff (jwt := ReferenceJwt.reference) None 0 Demo.jo_header
  = Ok Sample.jo_session /\
  Session.businessId Sample.jo_session = VStr "b1" /\
  get_staff_agenda (jwt := ReferenceJwt.reference) None 0 Demo.jo_header
    Sample.two_salons = Ok [] /\
  exists e st',
    post_bookings "k2" (Sample.tenant "b1") Sample.cut_for_ann Sample.two_salons
    = Ok (e, st') /\
    Booking.id e = "k2" /\ Booking.businessId e = "b1" /\
    Booking.status e = "confirmed" /\
    get_staff_agenda (jwt := ReferenceJwt.reference) None 0 Demo.jo_header st'
    = Ok ([] ++ if strict_eq (Booking.staffId e) (Session.staffId Sample.jo_session)
                then [e] else []).
Proof.
  assert (Huser : requireStaff (jwt := ReferenceJwt.reference) None 0 Demo.jo_header
                  = Ok Sample.jo_session) by (vm_compute; reflexivity).
  assert (Hagenda : get_staff_agenda (jwt := ReferenceJwt.reference) None 0
                      Demo.jo_header Sample.two_salons = Ok [])
    by (vm_compute; reflexivity).
  split; [vm_compute; reflexivity|]. split; [exact Huser|].
  split; [reflexivity|]. split; [exact Hagenda|].
  destruct (booking_then_listed (jwt := ReferenceJwt.reference) None "k2"
              Sample.two_salons (Sample.tenant "b1") "b1" Sample.cut_for_ann)
    as (e & st' & Hpost & Hid & Hbid & Hst & _ & Hadd & _); [vm_compute; reflexivity|].
  exists e, st'. split; [exact Hpost|]. split; [exact Hid|]. split; [exact Hbid|].
  split; [exact Hst|].
  exact (Hadd 0 Demo.jo_header Sample.jo_session [] Huser eq_refl Hagenda).
Defined.

Lemma agenda_within_bookings_witness :
  requireStaff (jwt := ReferenceJwt.reference) None 0 Demo.jo_header
  = Ok Sample.jo_session /\
  Session.businessId Sample.jo_session = VStr "b1" /\
  requireBiz Demo.busy_salons (Sample.tenant "b1") = Ok "b1" /\
  exists la lb,
    get_staff_agenda (jwt := ReferenceJwt.reference) None 0 Demo.jo_header
      Demo.busy_salons = Ok la /\
    get_bookings (Sample.tenant "b1") Demo.busy_salons = Ok lb /\
    la `sublist_of` lb /\
    Forall (fun b => Booking.staffId b = VStr "s1") la /\
    length la = 1%nat /\ length lb = 2%nat.
Proof.
  assert (Huser : requireStaff (jwt := ReferenceJwt.reference) None 0 Demo.jo_header
                  = Ok Sample.jo_session) by (vm_compute; reflexivity).
  assert (Hgate : requireBiz Demo.busy_salons (Sample.tenant "b1") = Ok "b1")
    by (vm_compute; reflexivity).
  split; [exact Huser|]. split; [reflexivity|]. split; [exact Hgate|].
  destruct (agenda_within_bookings (jwt := ReferenceJwt.reference) None 0
              Demo.busy_salons (Sample.tenant "b1") Demo.jo_header
              Sample.jo_session "b1" Huser eq_refl Hgate)
    as (la & lb & Ha & Hb & Hsub & _ & Hall).
  exists la, lb. split; [exact Ha|]. split; [exact Hb|]. split; [exact Hsub|].
  split; [exact (Hall "s1" eq_refl)|].
  vm_compute in Ha. vm_compute in Hb.
  injection Ha as <-. injection Hb as <-. split; reflexivity.
Defined.

Lemma write_only_stores_witness :
  unlisted (PostLeads "l1" (Sample.tenant "b1") Demo.walk_in) = true /\
  forall clock' q,
    run_list (jwt := ReferenceJwt.reference) None clock' q
      (run_create (jwt := ReferenceJwt.reference) None 0
         (PostLeads "l1" (Sample.tenant "b1") Demo.walk_in) Sample.two_salons)
    = run_list (jwt := ReferenceJwt.reference) None clock' q Sample.two_salons.
Proof.
  split; [reflexivity|].
  apply (write_only_stores (jwt := ReferenceJwt.reference) None 0
           (PostLeads "l1" (Sample.tenant "b1") Demo.walk_in) Sample.two_salons).
  reflexivity.
Defined.

Lemma faqs_store_any_truthy_witness :
  requireBiz Sample.salon (Sample.tenant "b1") = Ok "b1" /\
  "b1" <> "__proto__" /\
  truthy (VStr "closed") = true /\
  exists st',
    post_faqs (Sample.tenant "b1") {| items := VStr "closed" |} Sample.salon
    = Ok (true, st') /\
    get_faqs (Sample.tenant "b1") st' = Ok (Data (VStr "closed")).
Proof.
  split; [vm_compute; reflexivity|]. split; [discriminate|]. split; [reflexivity|].
  apply (faqs_store_any_truthy Sample.salon (Sample.tenant "b1") "b1"
           (VStr "closed"));
    [vm_compute; reflexivity | discriminate | reflexivity].
Defined.

Lemma inherited_names_pass_gate_witness :
  "constructor" ∈ Plain.object_prototype_names /\
  x_business_id (Sample.tenant "constructor") = Some "constructor" /\
  businesses empty_state = ∅ /\
  requireBiz empty_state (Sample.tenant "constructor") = Ok "constructor" /\
  exists e st',
    post_bookings "k1" (Sample.tenant "constructor") Sample.cut_for_ann empty_state
    = Ok (e, st') /\
    Booking.businessId e = "constructor" /\
    e ∈ bookings st' /\
    exists l, get_bookings (Sample.tenant "constructor") st' = Ok (l ++ [e]).
Proof.
  assert (Hin : "constructor" ∈ Plain.object_prototype_names)
    by (apply in_names_spec; reflexivity).
  split; [exact Hin|]. split; [reflexivity|]. split; [reflexivity|].
  apply (inherited_names_pass_gate empty_state (Sample.tenant "constructor")
           "constructor" "k1" Sample.cut_for_ann Hin).
  reflexivity.
Defined.

Lemma faqs_prototype_replaced_witness :
  x_business_id (Sample.tenant "__proto__") = Some "__proto__" /\
  Plain.own (faqs Sample.salon) !! "__proto__" = None /\
  Plain.reaches_accessor (Plain.proto (faqs Sample.salon)) = true /\
  requireBiz Sample.salon (Sample.tenant "constructor") = Ok "constructor" /\
  Plain.own (faqs Sample.salon) !! "constructor" = None /\
  Plain.field "constructor" [("constructor", VArr [VStr "leaked"])]
  = Some (VArr [VStr "leaked"]) /\
  truthy (VArr [VStr "leaked"]) = true /\
  get_faqs (Sample.tenant "constructor") Sample.salon = Ok (Native "Object") /\
  exists st',
    post_faqs (Sample.tenant "__proto__") Demo.poisoned Sample.salon
    = Ok (true, st') /\
    Plain.proto (faqs st') = Plain.ObjectValue [("constructor", VArr [VStr "leaked"])] /\
    Plain.own (faqs st') = Plain.own (faqs Sample.salon) /\
    get_faqs (Sample.tenant "constructor") st' = Ok (Data (VArr [VStr "leaked"])).
Proof.
  split; [reflexivity|]. split; [vm_compute; reflexivity|].
  split; [reflexivity|]. split; [vm_compute; reflexivity|].
  split; [vm_compute; reflexivity|]. split; [vm_compute; reflexivity|].
  split; [reflexivity|]. split; [vm_compute; reflexivity|].
  apply (faqs_prototype_replaced Sample.salon (Sample.tenant "__proto__")
           (Sample.tenant "constructor") [("constructor", VArr [VStr "leaked"])]
           "constructor" (VArr [VStr "leaked"]));
    vm_compute; reflexivity.
Defined.

Lemma faqs_proto_primitive_ignored_witness :
  x_business_id (Sample.tenant "__proto__") = Some "__proto__" /\
  Plain.own (faqs Sample.salon) !! "__proto__" = None /\
  Plain.reaches_accessor (Plain.proto (faqs Sample.salon)) = true /\
  truthy (VStr "closed") = true /\
  exists st',
    post_faqs (Sample.tenant "__proto__") {| items := VStr "closed" |} Sample.salon
    = Ok (true, st') /\
    faqs st' = faqs Sample.salon /\
    (Plain.proto (faqs Sample.salon) = Plain.ObjectPrototype ->
     get_faqs (Sample.tenant "__proto__") st' = Ok (Native "Object.prototype")).
Proof.
  split; [reflexivity|]. split; [vm_compute; reflexivity|].
  split; [reflexivity|]. split; [reflexivity|].
  apply (faqs_proto_primitive_ignored Sample.salon (Sample.tenant "__proto__")
           (VStr "closed"));
    [reflexivity | vm_compute; reflexivity | reflexivity | reflexivity
    | discriminate | discriminate].
Defined.

Lemma bearer_cut_anywhere_witness :
  (Sample.jo_token ++ "")%string =
  jwt_sign (Jwt := ReferenceJwt.reference) Sample.jo_claims (JWT_SECRET None)
    expiresIn 0 /\
  3600 < 0 + expiresIn /\
  requireStaff (jwt := ReferenceJwt.reference) None 3600 Demo.jo_header_reversed
  = Ok (session_of Sample.jo_claims 0 expiresIn).
Proof.
  assert (Htok : (Sample.jo_token ++ "")%string =
                 jwt_sign (Jwt := ReferenceJwt.reference) Sample.jo_claims
                   (JWT_SECRET None) expiresIn 0)
    by (vm_compute; reflexivity).
  split; [exact Htok|]. split; [reflexivity|].
  apply (bearer_cut_anywhere (jwt := ReferenceJwt.reference) None 0 3600
           Sample.jo_claims expiresIn Demo.jo_header_reversed Sample.jo_token ""
           Htok);
    [reflexivity | vm_compute; reflexivity].
Defined.

Lemma session_expires_witness :
  post_staff_login (jwt := ReferenceJwt.reference) None 0 (Sample.tenant "b1")
    Sample.jo_login Sample.salon_with_jo = Ok Sample.jo_logged_in /\
  0 + expiresIn <= 28800 /\
  requireStaff (jwt := ReferenceJwt.reference) None 28800 Demo.jo_header
  = Err 401 "Invalid token".
Proof.
  assert (Hlogin : post_staff_login (jwt := ReferenceJwt.reference) None 0
                     (Sample.tenant "b1") Sample.jo_login Sample.salon_with_jo
                   = Ok Sample.jo_logged_in) by (vm_compute; reflexivity).
  split; [exact Hlogin|]. split; [vm_compute; discriminate|].
  apply (session_expires (jwt := ReferenceJwt.reference) None 0 28800
           Sample.salon_with_jo (Sample.tenant "b1") Sample.jo_login
           Sample.jo_logged_in Demo.jo_header Hlogin);
    [vm_compute; discriminate | left; vm_compute; reflexivity].
Defined.

Lemma default_secret_accepts_any_claims_witness :
  (@None string = None \/ @None string = Some EmptyString) /\
  3600 < 0 + expiresIn /\
  requireStaff (jwt := ReferenceJwt.reference) None 3600 Demo.jo_header
  = Ok (session_of Sample.jo_claims 0 expiresIn).
Proof.
  split; [left; reflexivity|]. split; [reflexivity|].
  apply (default_secret_accepts_any_claims (jwt := ReferenceJwt.reference) None
           0 3600 expiresIn Sample.jo_claims Demo.jo_header "a1" empty_state);
    [left; reflexivity | reflexivity | vm_compute; reflexivity].
Defined.

Lemma projected_whole_numbers_witness :
  0 <= 50 <= 10000 /\ projected (of_Z 50) = of_Z ((117 * 50 + 50) / 100).
Proof. split; [lia|]. apply (projected_whole_numbers 50). lia. Defined.
